(** * AgriSmart: vegetation indices, growth-stage inference and recommendations

    A shallow embedding of [src/app_prod.py].  Python floats and numpy's
    [float64] are IEEE-754 binary64 numbers; they are modelled by Rocq's
    primitive [float], whose operations are specified on [spec_float] by the
    standard library.  Dictionaries are [gmap]s where only lookup matters
    (band sets, index sets, the threshold table) and association lists in
    insertion order where the keys themselves are observed (JSON objects). *)

From Stdlib Require Import ZArith List String Ascii Bool Lia Floats DecimalString.
From stdpp Require Import base option gmap strings.
Import ListNotations.
Set Warnings "-inexact-float,-register-all".

Open Scope Z_scope.
Open Scope string_scope.
Open Scope float_scope.

(** ** Exceptions and the error monad

    A Python call either returns a value or raises.  The exception keeps its
    class and the text that [str(e)] yields. *)

Inductive exn : Type :=
| ValueError (msg : string)
| TypeError (msg : string)
| KeyError (key : string)
| AttributeError (msg : string)
| ImportError (msg : string)
| RuntimeError (msg : string).

Definition str_exn (e : exn) : string :=
  match e with
  | ValueError m | TypeError m | AttributeError m | ImportError m | RuntimeError m => m
  | KeyError k => "'" ++ k ++ "'"
  end.

Inductive result (A : Type) : Type :=
| Ok (a : A)
| Raise (e : exn).
Arguments Ok {A} a.
Arguments Raise {A} e.

Definition rbind {A B : Type} (r : result A) (k : A -> result B) : result B :=
  match r with
  | Ok a => k a
  | Raise e => Raise e
  end.

#[global] Instance result_ret : MRet result := fun A a => Ok a.
#[global] Instance result_bind : MBind result := fun A B k r => rbind r k.

(** [try: ... except Exception: ...] *)
Definition try_except {A : Type} (r : result A) (handler : exn -> A) : A :=
  match r with
  | Ok a => a
  | Raise e => handler e
  end.

(** ** Python values that travel through JSON *)

Inductive pyval : Type :=
| PNone
| PBool (b : bool)
| PNum (x : float)
| PStr (s : string)
| PList (l : list pyval)
| PDict (d : list (string * pyval)).

Definition pydict := list (string * pyval).

Fixpoint dict_get (d : pydict) (k : string) : option pyval :=
  match d with
  | [] => None
  | (k', v) :: d' => if String.eqb k' k then Some v else dict_get d' k
  end.

(** [d[k] = v]: an existing key keeps its place, a new one goes last. *)
Fixpoint dict_set (d : pydict) (k : string) (v : pyval) : pydict :=
  match d with
  | [] => [(k, v)]
  | (k', v') :: d' =>
      if String.eqb k' k then (k', v) :: d' else (k', v') :: dict_set d' k v
  end.

Definition dict_keys (d : pydict) : list string := map fst d.

(** ** binary64 helpers *)

Module F64.

(** The closed interval test [lo <= x <= hi]; false on a NaN. *)
Definition within (lo hi x : float) : bool := (lo <=? x) && (x <=? hi).

(** Distance test [|x - c| < tol]. *)
Definition close_to (c tol x : float) : bool := abs (x - c) <? tol.

(** Classes of specification floats: a number (not a NaN), a finite
    number, a number that is not negative, a positive number. *)
Definition SFnumber (x : spec_float) : Prop := x <> S754_nan.

Definition SFfinite (x : spec_float) : Prop :=
  match x with
  | S754_zero _ | S754_finite _ _ _ => True
  | _ => False
  end.

Definition SFnonneg (x : spec_float) : Prop :=
  match x with
  | S754_zero _ | S754_finite false _ _ | S754_infinity false => True
  | _ => False
  end.

Definition SFpositive (x : spec_float) : Prop :=
  match x with
  | S754_finite false _ _ | S754_infinity false => True
  | _ => False
  end.

(** The exponent that binary64 assigns to a number of magnitude [2^x]:
    [fexp] at precision 53 and largest exponent 1024. *)
Definition fexp64 (x : Z) : Z := Z.max (x - 53) (-1074).

End F64.

(** ** Python built-ins *)

Module Py.

(** [max(0, x)]: the first argument is kept unless the second is strictly
    greater, so a NaN or a negative [x] gives [0]. *)
Definition max0 (x : float) : float := if 0 <? x then x else 0.

(** The integer nearest to [m * 2^e], ties to the even one. *)
Definition round_half_even (m : positive) (e : Z) : Z :=
  match e with
  | Zneg p =>
      let d := Z.pow_pos 2 p in
      let q := Z.pos m / d in
      let r := Z.pos m mod d in
      match Z.compare (2 * r) d with
      | Lt => q
      | Gt => q + 1
      | Eq => if Z.even q then q else q + 1
      end
  | _ => Z.pos m * 2 ^ e
  end%Z.

Definition str_of_Z (z : Z) : string := NilZero.string_of_int (Z.to_int z).

(** [format(x, '.0f')], the conversion behind [f"{x:.0f}"]. *)
Definition format_0f (x : float) : string :=
  match Prim2SF x with
  | S754_nan => "nan"
  | S754_infinity s => if s then "-inf" else "inf"
  | S754_zero s => if s then "-0" else "0"
  | S754_finite s m e =>
      (if s then "-" else "") ++ str_of_Z (round_half_even m e)
  end.

(** Truth value of an object, as [if not v] tests it. *)
Definition truthy (v : pyval) : bool :=
  match v with
  | PNone => false
  | PBool b => b
  | PNum x => negb (x =? 0)
  | PStr s => negb (String.eqb s "")
  | PList l => match l with [] => false | _ => true end
  | PDict d => match d with [] => false | _ => true end
  end.

Definition type_name (v : pyval) : string :=
  match v with
  | PNone => "NoneType"
  | PBool _ => "bool"
  | PNum _ => "float"
  | PStr _ => "str"
  | PList _ => "list"
  | PDict _ => "dict"
  end.

(** [v.get(k, dflt)]; only dictionaries have the method. *)
Definition get (v : pyval) (k : string) (dflt : pyval) : result pyval :=
  match v with
  | PDict d => Ok (default dflt (dict_get d k))
  | _ => Raise (AttributeError
                  ("'" ++ type_name v ++ "' object has no attribute 'get'"))
  end.

(** [v[k]] for a string key. *)
Definition getitem (v : pyval) (k : string) : result pyval :=
  match v with
  | PDict d =>
      match dict_get d k with
      | Some x => Ok x
      | None => Raise (KeyError k)
      end
  | PStr _ => Raise (TypeError "string indices must be integers")
  | PList _ => Raise (TypeError "list indices must be integers or slices, not str")
  | _ => Raise (TypeError ("'" ++ type_name v ++ "' object is not subscriptable"))
  end.

(** A value compared with a float by [<] and then used in arithmetic:
    numbers and booleans take part, on anything else the comparison
    raises. *)
Definition as_number (v : pyval) : result float :=
  match v with
  | PNum x => Ok x
  | PBool b => Ok (if b then 1 else 0)
  | _ => Raise (TypeError ("'<' not supported between instances of '"
                             ++ type_name v ++ "' and 'float'"))
  end.

Section Float.
(** The text-to-number conversion of the interpreter; [None] when the
    text is not a number. *)
Variable str_to_float : string -> option float.

(** [float(v)] *)
Definition float_ (v : pyval) : result float :=
  match v with
  | PNum x => Ok x
  | PBool b => Ok (if b then 1 else 0)
  | PStr s =>
      match str_to_float s with
      | Some x => Ok x
      | None => Raise (ValueError ("could not convert string to float: '" ++ s ++ "'"))
      end
  | _ => Raise (TypeError
                  ("float() argument must be a string or a real number, not '"
                     ++ type_name v ++ "'"))
  end.
End Float.

End Py.

(** ** numpy on one-dimensional arrays *)

Module Np.

Definition ndarray := list float.

(** [a.astype(float)]: the rasters already hold binary64 values. *)
Definition astype_float (a : ndarray) : ndarray := a.

(** Element-wise binary operation with numpy's broadcasting: equal
    lengths pair up, a one-element array is stretched, anything else
    raises. *)
Definition broadcast (f : float -> float -> float) (a b : ndarray)
  : result ndarray :=
  if Nat.eqb (length a) (length b) then Ok (zip_with f a b)
  else match a, b with
       | [x], _ => Ok (map (f x) b)
       | _, [y] => Ok (map (fun x => f x y) a)
       | _, _ => Raise (ValueError "operands could not be broadcast together")
       end.

Definition sub := broadcast PrimFloat.sub.
Definition add := broadcast PrimFloat.add.
Definition divide := broadcast PrimFloat.div.

(** Array with a Python scalar on the right or on the left. *)
Definition add_scalar (a : ndarray) (c : float) : ndarray := map (fun x => x + c) a.
Definition scalar_mul (c : float) (a : ndarray) : ndarray := map (fun x => c * x) a.

(** The scalar kernels of [np.clip]: a NaN operand is returned as is,
    otherwise the larger (smaller) of the two. *)
Definition max_ (a b : float) : float := if is_nan a then a else if b <? a then a else b.
Definition min_ (a b : float) : float := if is_nan a then a else if a <? b then a else b.
Definition clip1 (x lo hi : float) : float := min_ (max_ x lo) hi.

Definition clip (a : ndarray) (lo hi : float) : ndarray :=
  map (fun x => clip1 x lo hi) a.

End Np.

(** ** The application: [src/app_prod.py] *)

#[global] Instance float_inhabited : Inhabited float := populate 0.

(** Nutrient thresholds *)
Definition NUTRIENT_THRESHOLDS : gmap string float :=
  {[ "nitrogen_low" := 80; "nitrogen_medium" := 120; "nitrogen_high" := 160 ]}.

(** A band set maps band names to rasters, an index set index names to
    rasters. *)
Abbreviation BandSet := (gmap string Np.ndarray).
Abbreviation IndexSet := (gmap string Np.ndarray).

(** [2.5 * (nir - red) / (nir + 6*red - 7.5*blue + 1)] on one pixel, and the
    two normalised differences, as the array expressions compute them. *)
Definition nd_pixel (a b : float) : float := (a - b) / (a + b + 1e-8).
Definition evi_pixel (nir red blue : float) : float :=
  2.5 * (nir - red) / (nir + 6 * red - 7.5 * blue + 1).

(** The [(nir - x) / (nir + x + 1e-8)] expression of NDVI and NDRE. *)
Definition normalized_difference (nir x : Np.ndarray) : result Np.ndarray :=
  num ← Np.sub nir x;
  s ← Np.add nir x;
  Np.divide num (Np.add_scalar s 1e-8).

Definition enhanced_vegetation (nir red blue : Np.ndarray) : result Np.ndarray :=
  d ← Np.sub nir red;
  let num := Np.scalar_mul 2.5 d in
  s ← Np.add nir (Np.scalar_mul 6 red);
  t ← Np.sub s (Np.scalar_mul 7.5 blue);
  Np.divide num (Np.add_scalar t 1).

(** Compute vegetation indices from bands *)
Definition compute_vegetation_indices (bands : BandSet) : result IndexSet :=
  let indices : IndexSet := ∅ in
  (* NDVI = (NIR - Red) / (NIR + Red) *)
  indices ←
    match bands !! "B08", bands !! "B04" with
    | Some b08, Some b04 =>
        let nir := Np.astype_float b08 in
        let red := Np.astype_float b04 in
        v ← normalized_difference nir red;
        let indices := <["NDVI" := v]> indices in
        Ok (<["NDVI" := Np.clip v (-1) 1]> indices)
    | _, _ => Ok indices
    end;
  (* NDRE = (NIR - Red Edge) / (NIR + Red Edge) *)
  indices ←
    match bands !! "B08", bands !! "B05" with
    | Some b08, Some b05 =>
        let nir := Np.astype_float b08 in
        let red_edge := Np.astype_float b05 in
        v ← normalized_difference nir red_edge;
        let indices := <["NDRE" := v]> indices in
        Ok (<["NDRE" := Np.clip v (-1) 1]> indices)
    | _, _ => Ok indices
    end;
  (* EVI = 2.5 * (NIR - Red) / (NIR + 6*Red - 7.5*Blue + 1) *)
  indices ←
    match bands !! "B08", bands !! "B04", bands !! "B02" with
    | Some b08, Some b04, Some b02 =>
        let nir := Np.astype_float b08 in
        let red := Np.astype_float b04 in
        let blue := Np.astype_float b02 in
        v ← enhanced_vegetation nir red blue;
        let indices := <["EVI" := v]> indices in
        Ok (<["EVI" := Np.clip v (-1) 1]> indices)
    | _, _, _ => Ok indices
    end;
  Ok indices.

(** Generate irrigation and fertilizer recommendations *)
Definition generate_recommendations (growth_stage : string) (nitrogen_level : float)
  : pydict :=
  let recommendations : pydict :=
    [ ("growth_stage", PStr growth_stage);
      ("nitrogen_level", PNum nitrogen_level);
      ("nitrogen_status",
        PStr (if nitrogen_level <? NUTRIENT_THRESHOLDS !!! "nitrogen_low" then "low"
              else if nitrogen_level <? NUTRIENT_THRESHOLDS !!! "nitrogen_medium"
                   then "medium" else "high"));
      ("recommendations", PDict []) ] in
  (* Stage-specific recommendations *)
  let body : pydict :=
    if String.eqb growth_stage "vegetative" then
      [ ("irrigation", PStr "Apply 1500-2000 L/ha weekly, maintain soil moisture");
        ("fertilizer", PStr ("Apply " ++ Py.format_0f (Py.max0 (120 - nitrogen_level))
                               ++ " kg/ha N as basal dose"));
        ("management", PStr "Focus on leaf development, control weeds") ]
    else if String.eqb growth_stage "tuber_initiation" then
      [ ("irrigation", PStr "Apply 2000-2500 L/ha weekly, critical for tuber formation");
        ("fertilizer", PStr ("Apply " ++ Py.format_0f (Py.max0 (140 - nitrogen_level))
                               ++ " kg/ha N as top dressing"));
        ("management", PStr "Ensure adequate soil moisture, monitor for pests") ]
    else if String.eqb growth_stage "tuber_bulking" then
      [ ("irrigation", PStr "Apply 2500-3000 L/ha weekly, maximum water requirement");
        ("fertilizer", PStr ("Apply " ++ Py.format_0f (Py.max0 (160 - nitrogen_level))
                               ++ " kg/ha N + 60 kg/ha K"));
        ("management", PStr "Critical stage for yield, maintain optimal conditions") ]
    else if String.eqb growth_stage "maturation" then
      [ ("irrigation", PStr "Reduce to 1000-1500 L/ha, prepare for harvest");
        ("fertilizer", PStr "No additional N required, focus on K for quality");
        ("management", PStr "Prepare for harvest, monitor for diseases") ]
    else [] in
  dict_set recommendations "recommendations" (PDict body).

(** Predict growth stage based on NDVI: the threshold chain of [predict_gee]. *)
Definition predict_growth_stage (ndvi_mean : float) : string :=
  if ndvi_mean <? 0.3 then "vegetative"
  else if ndvi_mean <? 0.5 then "tuber_initiation"
  else if ndvi_mean <? 0.7 then "tuber_bulking"
  else "maturation".

(** Predict nitrogen level: [noise] is the sample that
    [np.random.normal(0, 10)] draws. *)
Definition predict_nitrogen_level (ndvi_mean noise : float) : float :=
  let nitrogen_level := 80 + (ndvi_mean * 100) + noise in
  Np.clip1 nitrogen_level 40 200.

(** A Flask response: the value given to [jsonify] and the status code. *)
Definition response : Type := pyval * Z.

Definition error_response (msg : string) (code : Z) : response :=
  (PDict [("error", PStr msg)], code).

(** Which path of the data provider produced an image. *)
Inductive provenance : Type := Live | Demo.

Section PredictGee.

(** Earth Engine geometries and images are opaque to the application. *)
Context {geometry image : Type}.

(** [gee_integration.GEEIntegration], of which [predict_gee] calls two
    methods; both may raise. *)
Record GEEIntegration : Type := {
  get_weekly_sentinel2_data : option geometry -> result image;
  get_weekly_summary : image -> result pyval;
  (** Modelled from the spec: [gee_integration.py] is not part of the
      sources; the provider serves a live external-data path and a demo
      synthetic path, and an image comes from one of them. *)
  image_source : image -> provenance
}.

(** The interpreter and the Earth Engine client library. *)
Variable str_to_float : string -> option float.
Variable import_ee : result unit.
Variable ee_point_buffer : float -> float -> float -> result geometry.

(** Module globals set at import time and by [load_trained_models]. *)
Variable GEE_AVAILABLE : bool.
Variable gee_integration : option GEEIntegration.

(** Optional AOI from lat/lon (1km buffer) *)
Definition aoi_of (lat lon : pyval) : option geometry :=
  match lat, lon with
  | PNone, _ | _, PNone => None
  | _, _ =>
      try_except
        (_ ← import_ee;
         x ← Py.float_ str_to_float lon;
         y ← Py.float_ str_to_float lat;
         g ← ee_point_buffer x y 1000;
         Ok (Some g))
        (fun _ => None)
  end.

(** Predict using Google Earth Engine data.  [request_json] is what
    [request.get_json()] returns or raises, [noise] the Gaussian sample
    and [now] the text of [datetime.now().isoformat()]. *)
Definition predict_gee (request_json : result pyval) (noise : float) (now : string)
  : response :=
  match GEE_AVAILABLE, gee_integration with
  | true, Some gee =>
      try_except
        (body ← request_json;
         let data := if Py.truthy body then body else PDict [] in
         use_gee ← Py.get data "use_gee" (PBool true);
         if negb (Py.truthy use_gee) then
           Ok (error_response "GEE prediction requested but use_gee is False" 400)
         else
           lat ← Py.get data "lat" PNone;
           lon ← Py.get data "lon" PNone;
           let aoi := aoi_of lat lon in
           (* Get GEE data (Live if available, Demo otherwise) *)
           gee_image ← get_weekly_sentinel2_data gee aoi;
           (* Get summary statistics *)
           summary ← get_weekly_summary gee gee_image;
           (* Generate predictions based on NDVI *)
           v ← Py.getitem summary "ndvi_mean";
           ndvi_mean ← Py.as_number v;
           let growth_stage := predict_growth_stage ndvi_mean in
           let nitrogen_level := predict_nitrogen_level ndvi_mean noise in
           (* Generate recommendations *)
           let recommendations := generate_recommendations growth_stage nitrogen_level in
           Ok (PDict
                 [ ("success", PBool true);
                   ("predictions",
                     PDict [ ("growth_stage", PStr growth_stage);
                             ("nitrogen_level", PNum nitrogen_level);
                             ("ndvi_mean", PNum ndvi_mean) ]);
                   ("recommendations", PDict recommendations);
                   ("timestamp", PStr now);
                   ("data_source", PStr "Google Earth Engine");
                   ("gee_summary", summary) ],
               200%Z))
        (fun e => error_response (str_exn e) 500)
  | _, _ => error_response "GEE integration not available" 400
  end.

End PredictGee.

(** ** Module state, start-up and the other routes *)

(** The quotation mark, for the markup of the pages. *)
Definition dq : string := String (ascii_of_nat 34) EmptyString.

Section Application.

Context {geometry image model : Type}.

(** The module globals that [load_trained_models] declares [global]. *)
Record Globals : Type := {
  growth_stage_model : option model;
  nitrogen_model : option model;
  cnn_model : option model;
  gee_integration : option (@GEEIntegration geometry image)
}.

(** The globals as the module body leaves them at import. *)
Definition initial_globals : Globals :=
  {| growth_stage_model := None; nitrogen_model := None; cnn_model := None;
     gee_integration := None |}.

(** What [load_trained_models] meets outside the process: [os.path.exists],
    the import of tensorflow followed by [load_model], [open] followed by
    [json.load], and the constructor [GEEIntegration()]. *)
Record LoadEnv : Type := {
  path_exists : string -> bool;
  load_cnn : result model;
  read_training_summary : result pyval;
  new_gee : result (@GEEIntegration geometry image)
}.

(** Set at import: whether [gee_integration] could be imported. *)
Variable GEE_AVAILABLE : bool.

(** Load the trained models.  The result is the returned flag and the
    globals after the call; log lines are not part of the model. *)
Definition load_trained_models (env : LoadEnv) (g : Globals) : bool * Globals :=
  (* Load CNN model if available *)
  let g :=
    if path_exists env "outputs/potato_growth_cnn.h5" then
      try_except
        (m ← load_cnn env;
         Ok {| growth_stage_model := growth_stage_model g;
               nitrogen_model := nitrogen_model g;
               cnn_model := Some m;
               gee_integration := gee_integration g |})
        (fun _ => g)
    else g in
  try_except
    ((* Load training results to understand model performance *)
     _ ← (if path_exists env "outputs/training_summary.json" then
            training_summary ← read_training_summary env;
            _ ← Py.get training_summary "model_performance" (PStr "N/A");
            Ok tt
          else Ok tt);
     (* Initialize GEE integration *)
     let gee :=
       if GEE_AVAILABLE then
         try_except (x ← new_gee env; Ok (Some x)) (fun _ => None)
       else None in
     Ok (true,
         {| growth_stage_model := growth_stage_model g;
            nitrogen_model := nitrogen_model g;
            cnn_model := cnn_model g;
            gee_integration := gee |}))
    (fun _ => (false, g)).

(** Home page with API documentation *)
Definition home (g : Globals) : string :=
  let gee_status :=
    if GEE_AVAILABLE && bool_decide (is_Some (gee_integration g))
    then "✅ Connected" else "❌ Not Available" in
  ("
    <!DOCTYPE html>
    <html>
    <head>
        <title>AgriSmart - AI-Powered Potato Crop Management</title>
        <style>
            body { font-family: Arial, sans-serif; margin: 40px; background-color: #f5f5f5; }
            .container { max-width: 800px; margin: 0 auto; background: white; padding: 30px; border-radius: 10px; box-shadow: 0 2px 10px rgba(0,0,0,0.1); }
            h1 { color: #2c5530; text-align: center; }
            .endpoint { background: #f8f9fa; padding: 15px; margin: 10px 0; border-left: 4px solid #28a745; border-radius: 5px; }
            .method { font-weight: bold; color: #007bff; }
            .url { font-family: monospace; background: #e9ecef; padding: 5px; border-radius: 3px; }
            .description { color: #6c757d; margin-top: 5px; }
            .gee-status { background: #e7f3ff; padding: 10px; border-radius: 5px; margin: 10px 0; }
        </style>
    </head>
    <body>
        <div class=" ++ dq ++ "container" ++ dq ++ ">
            <h1>🥔 AgriSmart API</h1>
            <p><strong>AI-Powered Potato Crop Growth Stage & Nutrient Health Management</strong></p>
            
            <div class=" ++ dq ++ "gee-status" ++ dq ++ ">
                <strong>🌍 Google Earth Engine Status:</strong> ")
  ++ gee_status
  ++ ("
            </div>
            
            <h2>API Endpoints</h2>
            
            <div class=" ++ dq ++ "endpoint" ++ dq ++ ">
                <div class=" ++ dq ++ "method" ++ dq ++ ">POST</div>
                <div class=" ++ dq ++ "url" ++ dq ++ ">/predict-gee</div>
                <div class=" ++ dq ++ "description" ++ dq ++ ">Use GEE data for real-time analysis (requires GEE integration)</div>
            </div>
            
            <div class=" ++ dq ++ "endpoint" ++ dq ++ ">
                <div class=" ++ dq ++ "method" ++ dq ++ ">GET</div>
                <div class=" ++ dq ++ "url" ++ dq ++ ">/dashboard</div>
                <div class=" ++ dq ++ "description" ++ dq ++ ">View aggregated data dashboard for officials</div>
            </div>
            
            <div class=" ++ dq ++ "endpoint" ++ dq ++ ">
                <div class=" ++ dq ++ "method" ++ dq ++ ">GET</div>
                <div class=" ++ dq ++ "url" ++ dq ++ ">/health</div>
                <div class=" ++ dq ++ "description" ++ dq ++ ">Check API health and model status</div>
            </div>
            
            <h2>Sample Usage</h2>
            <pre>
curl -X POST https://your-app.onrender.com/predict-gee \
  -H " ++ dq ++ "Content-Type: application/json" ++ dq ++ " \
  -d '{" ++ dq ++ "use_gee" ++ dq ++ ": true, " ++ dq ++ "lat" ++ dq ++ ": 11.0168, " ++ dq ++ "lon" ++ dq ++ ": 76.9558}'
            </pre>
        </div>
    </body>
    </html>
    ").

(** Dashboard for officials.  [sample_data] is a local constant; its four
    displayed entries appear as Python prints them, and nothing in the body
    can raise. *)
Definition dashboard : string :=
  let gee_status := if GEE_AVAILABLE then "Connected" else "Not Available" in
  ("
        <!DOCTYPE html>
        <html>
        <head>
            <title>AgriSmart Dashboard</title>
            <style>
                body { font-family: Arial, sans-serif; margin: 20px; background-color: #f5f5f5; }
                .container { max-width: 1200px; margin: 0 auto; background: white; padding: 20px; border-radius: 10px; }
                .stats { display: grid; grid-template-columns: repeat(auto-fit, minmax(200px, 1fr)); gap: 20px; margin-bottom: 30px; }
                .stat-card { background: #f8f9fa; padding: 20px; border-radius: 8px; text-align: center; border-left: 4px solid #28a745; }
                .stat-value { font-size: 2em; font-weight: bold; color: #28a745; }
                .stat-label { color: #6c757d; margin-top: 5px; }
                .gee-status { background: #e7f3ff; padding: 10px; border-radius: 5px; margin: 10px 0; }
            </style>
        </head>
        <body>
            <div class=" ++ dq ++ "container" ++ dq ++ ">
                <h1>🥔 AgriSmart Dashboard</h1>
                <p><strong>Real-time Potato Crop Management Analytics</strong></p>
                
                <div class=" ++ dq ++ "gee-status" ++ dq ++ ">
                    <strong>🌍 Google Earth Engine Status:</strong> ")
  ++ gee_status
  ++ ("
                </div>
                
                <div class=" ++ dq ++ "stats" ++ dq ++ ">
                    <div class=" ++ dq ++ "stat-card" ++ dq ++ ">
                        <div class=" ++ dq ++ "stat-value" ++ dq ++ ">")
  ++ "150"
  ++ ("</div>
                        <div class=" ++ dq ++ "stat-label" ++ dq ++ ">Active Farmers</div>
                    </div>
                    <div class=" ++ dq ++ "stat-card" ++ dq ++ ">
                        <div class=" ++ dq ++ "stat-value" ++ dq ++ ">")
  ++ "2500"
  ++ (" ha</div>
                        <div class=" ++ dq ++ "stat-label" ++ dq ++ ">Total Area</div>
                    </div>
                    <div class=" ++ dq ++ "stat-card" ++ dq ++ ">
                        <div class=" ++ dq ++ "stat-value" ++ dq ++ ">")
  ++ "115.5"
  ++ (" kg/ha</div>
                        <div class=" ++ dq ++ "stat-label" ++ dq ++ ">Avg Nitrogen</div>
                    </div>
                    <div class=" ++ dq ++ "stat-card" ++ dq ++ ">
                        <div class=" ++ dq ++ "stat-value" ++ dq ++ ">")
  ++ "22.5 tons/ha"
  ++ ("</div>
                        <div class=" ++ dq ++ "stat-label" ++ dq ++ ">Predicted Yield</div>
                    </div>
                </div>
                
                <h2>Recent Recommendations</h2>
                <ul>
                    <li>Field ID: F001 - Vegetative stage, apply 25 kg/ha N</li>
                    <li>Field ID: F002 - Tuber initiation, increase irrigation to 2500 L/ha</li>
                    <li>Field ID: F003 - Tuber bulking, apply 30 kg/ha N + 60 kg/ha K</li>
                </ul>
            </div>
        </body>
        </html>
        ").

(** Health check endpoint; [now] is the text of
    [datetime.now().isoformat()]. *)
Definition health (g : Globals) (now : string) : response :=
  let models_loaded :=
    bool_decide (is_Some (growth_stage_model g))
    || bool_decide (is_Some (nitrogen_model g))
    || bool_decide (is_Some (cnn_model g)) in
  (PDict [ ("status", PStr "healthy");
           ("models_loaded", PBool models_loaded);
           ("gee_available", PBool GEE_AVAILABLE);
           ("gee_connected", PBool (bool_decide (is_Some (gee_integration g))));
           ("timestamp", PStr now);
           ("version", PStr "1.0.0") ],
   200%Z).

End Application.

(** ** Vocabulary of the statements *)

(** Lookup in the dictionary that a response or a recommendation holds. *)
Definition field (v : pyval) (k : string) : option pyval :=
  match v with
  | PDict d => dict_get d k
  | _ => None
  end.

(** The fertilizer sentence of a recommendation. *)
Definition fertilizer_text (recommendations : pydict) : option string :=
  match dict_get recommendations "recommendations" with
  | Some body =>
      match field body "fertilizer" with
      | Some (PStr s) => Some s
      | _ => None
      end
  | None => None
  end.

Definition nitrogen_status (recommendations : pydict) : option string :=
  match dict_get recommendations "nitrogen_status" with
  | Some (PStr s) => Some s
  | _ => None
  end.

(** Reading a sentence back: the decimal digits that follow ["Apply "]. *)
Definition digit_of (c : ascii) : option Z :=
  let n := Z.of_nat (nat_of_ascii c) in
  if ((48 <=? n) && (n <=? 57))%Z then Some (n - 48)%Z else None.

Fixpoint leading_number (s : string) (acc : option Z) : option Z :=
  match s with
  | EmptyString => acc
  | String c s' =>
      match digit_of c with
      | Some d => leading_number s' (Some (10 * default 0%Z acc + d)%Z)
      | None => acc
      end
  end.

Definition shown_dose (sentence : string) : option Z :=
  if String.prefix "Apply " sentence
  then leading_number (String.substring 6 (String.length sentence - 6) sentence) None
  else None.

(** [n] is an integer nearest to [m * 2^e]. *)
Definition nearest_integer (m : positive) (e n : Z) : Prop :=
  match e with
  | Zneg p => (2 * Z.abs (Z.pos m - n * Z.pow_pos 2 p) <= Z.pow_pos 2 p)%Z
  | _ => n = (Z.pos m * 2 ^ e)%Z
  end.

(** The dose of a sentence: [max(0, deficit)] printed without decimals. *)
Definition whole_kg (deficit : float) : string := Py.format_0f (Py.max0 deficit).

(** Pixel-wise application of a three-argument formula. *)
Fixpoint zip_with3 {A B C D : Type} (f : A -> B -> C -> D)
  (a : list A) (b : list B) (c : list C) : list D :=
  match a, b, c with
  | x :: a', y :: b', z :: c' => f x y z :: zip_with3 f a' b' c'
  | _, _, _ => []
  end.

(** What the index set holds for rasters of one shape: the pixel formulas,
    clipped. *)
Definition ndvi_of (bands : BandSet) : option Np.ndarray :=
  nir ← bands !! "B08"; red ← bands !! "B04";
  Some (Np.clip (zip_with nd_pixel nir red) (-1) 1).

Definition ndre_of (bands : BandSet) : option Np.ndarray :=
  nir ← bands !! "B08"; red_edge ← bands !! "B05";
  Some (Np.clip (zip_with nd_pixel nir red_edge) (-1) 1).

Definition evi_of (bands : BandSet) : option Np.ndarray :=
  nir ← bands !! "B08"; red ← bands !! "B04"; blue ← bands !! "B02";
  Some (Np.clip (zip_with3 evi_pixel nir red blue) (-1) 1).

(** The raster that the index set holds under a name, if any. *)
Definition computed_index (bands : BandSet) (k : string) : option Np.ndarray :=
  match compute_vegetation_indices bands with
  | Ok r => r !! k
  | Raise _ => None
  end.

(** All rasters of a band set have one shape. *)
Definition same_shape (bands : BandSet) : Prop :=
  exists n : nat, forall (k : string) (a : Np.ndarray), bands !! k = Some a -> length a = n.

(** Every pixel of every raster passes a test. *)
Definition all_pixels (P : float -> bool) (bands : BandSet) : Prop :=
  forall (k : string) (a : Np.ndarray), bands !! k = Some a -> forallb P a = true.

(** A finite value that is not negative. *)
Definition finite_nonneg (x : float) : bool := is_finite x && (0 <=? x).

(** An index value is a NaN or lies in [[-1, 1]]. *)
Definition nan_or_unit (x : float) : bool := is_nan x || F64.within (-1) 1 x.

(** The data source that the interface description announces for each path. *)
Definition announced_data_source (p : provenance) : string :=
  match p with
  | Live => "Google Earth Engine"
  | Demo => "demo"
  end.

(** Degrees of latitude and longitude. *)
Definition latitude_in_range (x : float) : bool := F64.within (-90) 90 x.
Definition longitude_in_range (x : float) : bool := F64.within (-180) 180 x.

(** A response reports a failure when its status is not 200. *)
Definition is_failure (r : response) : bool := negb (snd r =? 200)%Z.

(** The response without its time stamp. *)
Definition without_timestamp (r : response) : response :=
  match r with
  | (PDict d, code) =>
      (PDict (filter (fun kv => negb (String.eqb (fst kv) "timestamp")) d), code)
  | _ => r
  end.

(** *** A provider and a client for running the endpoint *)

Module Sample.

(** A geometry records the point and the buffer radius. *)
Definition geometry : Type := float * float * float.

(** An image records the area it was requested for. *)
Definition image : Type := option geometry.

(** The client builds geometries without checking them. *)
Definition ee_point_buffer (lon lat radius : float) : result geometry :=
  Ok (lon, lat, radius).

(** A conversion that reads plain decimal integers. *)
Definition str_to_float (s : string) : option float :=
  match NilZero.int_of_string s with
  | Some i => Some (SF2Prim (binary_normalize prec emax (Z.of_int i) 0 false))
  | None => None
  end.

(** A provider on its demo path with a fixed summary. *)
Definition demo_gee : @GEEIntegration geometry image :=
  {| get_weekly_sentinel2_data := fun aoi => Ok aoi;
     get_weekly_summary := fun _ =>
       Ok (PDict [("ndvi_mean", PNum 0.6); ("mode", PStr "demo")]);
     image_source := fun _ => Demo |}.

Definition run (request : pyval) (noise : float) (now : string) : response :=
  predict_gee str_to_float (Ok tt) ee_point_buffer true (Some demo_gee)
    (Ok request) noise now.

(** The band set of the end-to-end scenario. *)
Definition scenario : BandSet :=
  {[ "B02" := [100]; "B04" := [200]; "B05" := [150]; "B08" := [800] ]}.

(** The scenario with every band value zero, two pixels per band. *)
Definition zeros : BandSet :=
  {[ "B02" := [0; 0]; "B04" := [0; 0]; "B05" := [0; 0]; "B08" := [0; 0] ]}.

(** The scenario without its near-infrared band. *)
Definition no_nir : BandSet :=
  {[ "B02" := [100]; "B04" := [200]; "B05" := [150] ]}.

(** Three bands with the value 2 in their only pixel. *)
Definition twos : BandSet :=
  {[ "B02" := [2]; "B04" := [2]; "B08" := [2] ]}.

End Sample.

(** *** Vocabulary of the further properties *)

(** [sub in s]: the text [sub] occurs in [s]. *)
Fixpoint contains (sub s : string) : bool :=
  if String.prefix sub s then true
  else match s with
       | EmptyString => false
       | String _ s' => contains sub s'
       end.

(** The keys of the object under a key of a dictionary. *)
Definition keys_under (d : pydict) (k : string) : list string :=
  match dict_get d k with
  | Some (PDict body) => dict_keys body
  | _ => []
  end.

(** The four growth stages. *)
Definition known_stage (s : string) : bool :=
  String.eqb s "vegetative" || String.eqb s "tuber_initiation"
  || String.eqb s "tuber_bulking" || String.eqb s "maturation".

(** The place of a growth stage in the season. *)
Definition stage_rank (s : string) : nat :=
  if String.eqb s "vegetative" then 0
  else if String.eqb s "tuber_initiation" then 1
  else if String.eqb s "tuber_bulking" then 2
  else 3.

(** A response that reports an error: one key, [error], and a text. *)
Definition is_error_body (v : pyval) : Prop :=
  exists msg : string, v = PDict [("error", PStr msg)].

(** Two band sets agree on the bands that the indices read. *)
Definition same_index_bands (b1 b2 : BandSet) : Prop :=
  b1 !! "B08" = b2 !! "B08" /\ b1 !! "B04" = b2 !! "B04" /\
  b1 !! "B05" = b2 !! "B05" /\ b1 !! "B02" = b2 !! "B02".

Module Bands.

(** The scenario with a short-wave infrared band besides. *)
Definition with_swir : BandSet := <["B11" := [300]]> Sample.scenario.

(** A red band of two pixels against a near-infrared band of three. *)
Definition ragged : BandSet :=
  {[ "B04" := [1; 2]; "B05" := [1; 2; 3]; "B08" := [1; 2; 3] ]}.

(** Three near-infrared pixels and one red value for all of them. *)
Definition flat_red : BandSet :=
  {[ "B04" := [200]; "B08" := [800; 600; 400] ]}.

(** Two pixels: near-infrared above red in the first, below in the second. *)
Definition two_pixels : BandSet :=
  {[ "B04" := [200; 900]; "B08" := [800; 300] ]}.

End Bands.

Module Startup.

(** A start-up where both files exist, tensorflow loads the network, the
    training summary is not valid JSON and the provider can be built. *)
Definition broken_summary : @LoadEnv Sample.geometry Sample.image unit :=
  {| path_exists := fun _ => true;
     load_cnn := Ok tt;
     read_training_summary := Raise (ValueError "Expecting value: line 1 column 1 (char 0)");
     new_gee := Ok Sample.demo_gee |}.

(** A start-up on a machine without model files, the provider available. *)
Definition no_files : @LoadEnv Sample.geometry Sample.image unit :=
  {| path_exists := fun _ => false;
     load_cnn := Raise (ImportError "No module named 'tensorflow'");
     read_training_summary :=
       Raise (RuntimeError "No such file or directory: 'outputs/training_summary.json'");
     new_gee := Ok Sample.demo_gee |}.

End Startup.

(** Providers that fail. *)
Module Providers.

(** The image request raises. *)
Definition out_of_quota : @GEEIntegration Sample.geometry Sample.image :=
  {| get_weekly_sentinel2_data := fun _ => Raise (RuntimeError "Earth Engine quota exceeded");
     get_weekly_summary := fun _ => Ok (PDict [("ndvi_mean", PNum 0.6)]);
     image_source := fun _ => Live |}.

(** The summary has no NDVI mean. *)
Definition no_ndvi : @GEEIntegration Sample.geometry Sample.image :=
  {| get_weekly_sentinel2_data := fun aoi => Ok aoi;
     get_weekly_summary := fun _ => Ok (PDict [("evi_mean", PNum 0.4)]);
     image_source := fun _ => Demo |}.

End Providers.

(** The globals that a process can hold: those of the import, and those
    left by a call of [load_trained_models] on globals it could hold. *)
Inductive reachable {geometry image model : Type} (GEE_AVAILABLE : bool)
  : @Globals geometry image model -> Prop :=
| reach_import : reachable GEE_AVAILABLE initial_globals
| reach_load (env : LoadEnv) (g : Globals) :
    reachable GEE_AVAILABLE g ->
    reachable GEE_AVAILABLE (snd (load_trained_models GEE_AVAILABLE env g)).

(** * Facts *)

(** ** Order and classification of binary64 values

    The primitive comparisons are specified by [SFcompare] on [spec_float];
    the order facts are proved there and carried over. *)

Module F64Facts.
Import F64.

Ltac cmp_cases :=
  repeat match goal with
    | H : context [Pos.compare_cont Eq ?a ?b] |- _ =>
        change (Pos.compare_cont Eq a b) with (Pos.compare a b) in H
    | |- context [Pos.compare_cont Eq ?a ?b] =>
        change (Pos.compare_cont Eq a b) with (Pos.compare a b)
    end;
  repeat match goal with
    | H : context [Z.compare ?a ?b] |- _ => destruct (Z.compare_spec a b); simpl in H
    | H : context [Pos.compare ?a ?b] |- _ => destruct (Pos.compare_spec a b); simpl in H
    | |- context [Z.compare ?a ?b] => destruct (Z.compare_spec a b); simpl
    | |- context [Pos.compare ?a ?b] => destruct (Pos.compare_spec a b); simpl
    end;
  try discriminate; try reflexivity; try lia.

Ltac sf_cases :=
  repeat match goal with
    | x : spec_float |- _ => destruct x
    | s : bool |- _ => destruct s
    end;
  simpl in *; try discriminate; try reflexivity; cmp_cases.

Lemma SFltb_leb (x y : spec_float) : SFltb x y = true -> SFleb x y = true.
Proof. unfold SFltb, SFleb. destruct (SFcompare x y) as [[]|]; easy. Qed.

Lemma SFcompare_antisym (x y : spec_float) :
  SFcompare y x = option_map CompOpp (SFcompare x y).
Proof.
  destruct x as [[]|[]| |[] mx ex], y as [[]|[]| |[] my ey]; simpl; try reflexivity;
    rewrite (Z.compare_antisym ex ey);
    change (Pos.compare_cont Eq my mx) with (Pos.compare my mx);
    change (Pos.compare_cont Eq mx my) with (Pos.compare mx my);
    rewrite (Pos.compare_antisym mx my);
    destruct (ex ?= ey)%Z, (mx ?= my)%positive; reflexivity.
Qed.

Lemma SFleb_not_ltb (x y : spec_float) : SFleb x y = true -> SFltb y x = false.
Proof.
  unfold SFltb, SFleb. rewrite (SFcompare_antisym x y).
  destruct (SFcompare x y) as [[]|]; easy.
Qed.

Lemma SFltb_trans (x y z : spec_float) :
  SFltb x y = true -> SFltb y z = true -> SFltb x z = true.
Proof. unfold SFltb. intros Hxy Hyz. sf_cases. Qed.

Lemma SFleb_trans (x y z : spec_float) :
  SFleb x y = true -> SFleb y z = true -> SFleb x z = true.
Proof. unfold SFleb. intros Hxy Hyz. sf_cases. Qed.

Lemma SFcompare_None (x y : spec_float) :
  SFcompare x y = None -> x = S754_nan \/ y = S754_nan.
Proof.
  destruct x as [?|?| |? ? ?], y as [?|?| |? ? ?]; simpl; auto; discriminate.
Qed.

Lemma SFleb_total (x y : spec_float) :
  x <> S754_nan -> y <> S754_nan -> SFltb x y = false -> SFleb y x = true.
Proof.
  intros Hx Hy. unfold SFltb, SFleb. rewrite (SFcompare_antisym x y).
  destruct (SFcompare x y) as [[]|] eqn:E; simpl; try easy.
  destruct (SFcompare_None _ _ E); contradiction.
Qed.

Lemma SFcompare_refl (x : spec_float) : x <> S754_nan -> SFcompare x x = Some Eq.
Proof.
  destruct x as [?|[]| |[] m e]; simpl; try congruence; intros _;
    rewrite Z.compare_refl;
    change (Pos.compare_cont Eq m m) with (Pos.compare m m);
    rewrite Pos.compare_refl; reflexivity.
Qed.

(** *** The same facts on primitive floats *)

Lemma is_nan_spec (x : float) : is_nan x = false <-> Prim2SF x <> S754_nan.
Proof.
  unfold is_nan. rewrite FloatAxioms.eqb_spec. unfold SFeqb. split.
  - intros H E. rewrite E in H. discriminate.
  - intros H. rewrite (SFcompare_refl _ H). reflexivity.
Qed.

Lemma ltb_leb (x y : float) : (x <? y) = true -> (x <=? y) = true.
Proof. rewrite FloatAxioms.ltb_spec, FloatAxioms.leb_spec. apply SFltb_leb. Qed.

Lemma leb_not_ltb (x y : float) : (x <=? y) = true -> (y <? x) = false.
Proof. rewrite FloatAxioms.ltb_spec, FloatAxioms.leb_spec. apply SFleb_not_ltb. Qed.

Lemma ltb_trans (x y z : float) : (x <? y) = true -> (y <? z) = true -> (x <? z) = true.
Proof. rewrite !FloatAxioms.ltb_spec. apply SFltb_trans. Qed.

Lemma leb_trans (x y z : float) : (x <=? y) = true -> (y <=? z) = true -> (x <=? z) = true.
Proof. rewrite !FloatAxioms.leb_spec. apply SFleb_trans. Qed.

Lemma leb_total (x y : float) :
  is_nan x = false -> is_nan y = false -> (x <? y) = false -> (y <=? x) = true.
Proof. rewrite !is_nan_spec, FloatAxioms.ltb_spec, FloatAxioms.leb_spec. apply SFleb_total. Qed.

Lemma leb_refl (x : float) : is_nan x = false -> (x <=? x) = true.
Proof.
  rewrite is_nan_spec, FloatAxioms.leb_spec. intros H. unfold SFleb.
  rewrite (SFcompare_refl _ H). reflexivity.
Qed.

Lemma ltb_number_l (x y : float) : (x <? y) = true -> is_nan x = false.
Proof.
  rewrite FloatAxioms.ltb_spec, is_nan_spec. intros H E. rewrite E in H. discriminate.
Qed.

Lemma ltb_number_r (x y : float) : (x <? y) = true -> is_nan y = false.
Proof.
  rewrite FloatAxioms.ltb_spec, is_nan_spec. intros H E. rewrite E in H.
  destruct (Prim2SF x); discriminate.
Qed.

Lemma leb_number_l (x y : float) : (x <=? y) = true -> is_nan x = false.
Proof.
  rewrite FloatAxioms.leb_spec, is_nan_spec. intros H E. rewrite E in H. discriminate.
Qed.

Lemma leb_number_r (x y : float) : (x <=? y) = true -> is_nan y = false.
Proof.
  rewrite FloatAxioms.leb_spec, is_nan_spec. intros H E. rewrite E in H.
  destruct (Prim2SF x); discriminate.
Qed.

(** *** Rounding never invents a NaN *)

Section Rounding.
Variables prec emax : Z.

Lemma shr_1_nonneg (mrs : shr_record) : (0 <= shr_m mrs -> 0 <= shr_m (shr_1 mrs))%Z.
Proof. destruct mrs as [[|[p|p|]|p] r s]; simpl; lia. Qed.

Lemma iter_pos_invariant {A : Type} (P : A -> Prop) (f : A -> A) :
  (forall a, P a -> P (f a)) -> forall n a, P a -> P (SpecFloat.iter_pos f n a).
Proof.
  intros Hf. induction n as [n IH|n IH|]; simpl; intros a Ha; auto.
Qed.

Lemma shr_nonneg (mrs : shr_record) (e n : Z) :
  (0 <= shr_m mrs -> 0 <= shr_m (fst (shr mrs e n)))%Z.
Proof.
  intros H. destruct n as [|p|p]; simpl; trivial.
  apply (iter_pos_invariant (fun r => 0 <= shr_m r)%Z); auto using shr_1_nonneg.
Qed.

Lemma shr_record_of_loc_m (m : Z) (l : location) : shr_m (shr_record_of_loc m l) = m.
Proof. destruct l as [|[]]; reflexivity. Qed.

Lemma shr_fexp_nonneg (m e : Z) (l : location) :
  (0 <= m -> 0 <= shr_m (fst (shr_fexp prec emax m e l)))%Z.
Proof.
  intros H. unfold shr_fexp. apply shr_nonneg. now rewrite shr_record_of_loc_m.
Qed.

Lemma round_nearest_even_nonneg (m : Z) (l : location) :
  (0 <= m -> 0 <= round_nearest_even m l)%Z.
Proof.
  intros H. destruct l as [|[]]; simpl; try lia. destruct (Z.even m); lia.
Qed.

Lemma binary_round_aux_number (sx : bool) (mx ex : Z) (lx : location) :
  (0 <= mx)%Z -> SFnumber (binary_round_aux prec emax sx mx ex lx).
Proof.
  intros H. unfold binary_round_aux.
  pose proof (shr_fexp_nonneg mx ex lx H) as H1.
  destruct (shr_fexp prec emax mx ex lx) as [mrs' e']. simpl in H1.
  pose proof (shr_fexp_nonneg _ e' loc_Exact
                (round_nearest_even_nonneg _ (loc_of_shr_record mrs') H1)) as H2.
  destruct (shr_fexp prec emax _ e' loc_Exact) as [mrs'' e'']. simpl in H2.
  destruct (shr_m mrs'') as [|p|p]; try lia; try discriminate.
  destruct (Z.leb e'' (emax - prec)); discriminate.
Qed.

Lemma binary_normalize_number (m e : Z) (szero : bool) :
  SFnumber (binary_normalize prec emax m e szero).
Proof.
  destruct m as [|p|p]; simpl; try discriminate;
    unfold binary_round; destruct (shl_align _ _ _) as [mz ez];
    apply binary_round_aux_number; lia.
Qed.

Lemma SFadd_number_finite_r (x y : spec_float) :
  SFnumber x -> SFfinite y -> SFnumber (SFadd prec emax x y).
Proof.
  intros Hx Hy. destruct x as [[]|[]| |sx mx ex], y as [[]|?| |sy my ey];
    simpl in *; try contradiction; try discriminate; try (exfalso; now apply Hx);
    apply binary_normalize_number.
Qed.

Lemma SFadd_number_finite_l (x y : spec_float) :
  SFfinite x -> SFnumber y -> SFnumber (SFadd prec emax x y).
Proof.
  intros Hx Hy. destruct x as [[]|?| |sx mx ex], y as [[]|[]| |sy my ey];
    simpl in *; try contradiction; try discriminate; try (exfalso; now apply Hy);
    apply binary_normalize_number.
Qed.

Lemma SFmul_number_finite (x y : spec_float) :
  SFfinite x -> SFfinite y -> SFnumber (SFmul prec emax x y).
Proof.
  intros Hx Hy. destruct x as [?|?| |sx mx ex], y as [?|?| |sy my ey];
    simpl in *; try contradiction; try discriminate.
  apply binary_round_aux_number; lia.
Qed.
End Rounding.

(** *** Magnitudes: alignment, rounding and overflow

    All exponents are those of binary64, precision 53 and largest exponent
    1024, so that the least exponent is -1074 and the largest 971. *)

Open Scope Z_scope.

Lemma pow2_pos (k : Z) : 0 <= k -> 0 < 2 ^ k.
Proof. intros H. apply Z.pow_pos_nonneg; lia. Qed.

Lemma pow2_succ (k : Z) : 0 <= k -> 2 ^ (k + 1) = 2 * 2 ^ k.
Proof. intros H. rewrite Z.pow_add_r by lia. change (2 ^ 1) with 2. lia. Qed.

Lemma digits2_pos_bounds (m : positive) :
  2 ^ (Z.pos (digits2_pos m) - 1) <= Z.pos m < 2 ^ Z.pos (digits2_pos m).
Proof.
  induction m as [m IH|m IH|]; cbn [digits2_pos].
  - rewrite Pos2Z.inj_succ, Pos2Z.inj_xI.
    replace (Z.succ (Z.pos (digits2_pos m)) - 1) with (Z.pos (digits2_pos m) - 1 + 1) by lia.
    unfold Z.succ. rewrite !pow2_succ by lia. lia.
  - rewrite Pos2Z.inj_succ, Pos2Z.inj_xO.
    replace (Z.succ (Z.pos (digits2_pos m)) - 1) with (Z.pos (digits2_pos m) - 1 + 1) by lia.
    unfold Z.succ. rewrite !pow2_succ by lia. lia.
  - cbn. lia.
Qed.

Lemma digits2_pos_le (m : positive) (k : Z) :
  Z.pos m < 2 ^ k -> Z.pos (digits2_pos m) <= k.
Proof.
  intros H. destruct (digits2_pos_bounds m) as [Hl _].
  destruct (Z.le_gt_cases (Z.pos (digits2_pos m)) k) as [|Hk]; trivial.
  assert (0 <= k \/ k < 0) as [Hk0|Hk0] by lia.
  - assert (2 ^ k <= 2 ^ (Z.pos (digits2_pos m) - 1)) by (apply Z.pow_le_mono_r; lia). lia.
  - rewrite Z.pow_neg_r in H by assumption. lia.
Qed.

Lemma digits2_pos_gt (m : positive) (k : Z) :
  2 ^ k <= Z.pos m -> k < Z.pos (digits2_pos m).
Proof.
  intros H. destruct (digits2_pos_bounds m) as [_ Hu].
  destruct (Z.lt_ge_cases k (Z.pos (digits2_pos m))) as [|Hk]; trivial.
  assert (2 ^ Z.pos (digits2_pos m) <= 2 ^ k) by (apply Z.pow_le_mono_r; lia). lia.
Qed.

Lemma shr_1_m (r : shr_record) : 0 <= shr_m r -> shr_m (shr_1 r) = shr_m r / 2.
Proof.
  destruct r as [[|[p|p|]|p] b s]; cbn [shr_m shr_1]; intros H; try lia; trivial.
  - apply Z.div_unique with (r := 1); lia.
  - apply Z.div_unique with (r := 0); lia.
Qed.

Lemma pow2_xO (p : positive) : 2 ^ Z.pos p~0 = 2 ^ Z.pos p * 2 ^ Z.pos p.
Proof. rewrite Pos2Z.inj_xO, <- Z.pow_add_r by lia. f_equal. lia. Qed.

Lemma pow2_xI (p : positive) : 2 ^ Z.pos p~1 = 2 * (2 ^ Z.pos p * 2 ^ Z.pos p).
Proof.
  rewrite Pos2Z.inj_xI, <- Z.pow_add_r, <- pow2_succ by lia. f_equal. lia.
Qed.

Lemma shr_iter_m (p : positive) (r : shr_record) :
  0 <= shr_m r -> shr_m (SpecFloat.iter_pos shr_1 p r) = shr_m r / 2 ^ Z.pos p.
Proof.
  revert r. induction p as [p IH|p IH|]; intros r H; cbn [SpecFloat.iter_pos].
  - assert (H1 : 0 <= shr_m (shr_1 r)) by (rewrite shr_1_m by trivial; apply Z.div_pos; lia).
    assert (H2 : 0 <= shr_m (SpecFloat.iter_pos shr_1 p (shr_1 r)))
      by (rewrite IH by trivial; apply Z.div_pos; [lia|apply pow2_pos; lia]).
    rewrite IH, IH, shr_1_m by trivial.
    pose proof (pow2_pos (Z.pos p)) as Hp.
    rewrite !Z.div_div by lia. rewrite pow2_xI. f_equal; lia.
  - assert (H2 : 0 <= shr_m (SpecFloat.iter_pos shr_1 p r))
      by (rewrite IH by trivial; apply Z.div_pos; [lia|apply pow2_pos; lia]).
    rewrite IH, IH by trivial.
    pose proof (pow2_pos (Z.pos p)) as Hp.
    rewrite !Z.div_div by lia. rewrite pow2_xO. reflexivity.
  - rewrite shr_1_m by trivial. reflexivity.
Qed.

Lemma fexp64_eq (x : Z) : fexp prec emax x = fexp64 x.
Proof. reflexivity. Qed.

Lemma Zdigits2_pos (m : Z) : 0 < m -> 0 < Zdigits2 m.
Proof. destruct m; simpl; lia. Qed.

Lemma Zdigits2_bounds (m : Z) :
  0 < m -> 2 ^ (Zdigits2 m - 1) <= m < 2 ^ Zdigits2 m.
Proof. destruct m as [|p|p]; try lia. intros _. apply digits2_pos_bounds. Qed.

Lemma Zdigits2_le (m k : Z) : 0 < m -> m < 2 ^ k -> Zdigits2 m <= k.
Proof. destruct m as [|p|p]; try lia. intros _. apply digits2_pos_le. Qed.

Lemma Zdigits2_gt (m k : Z) : 0 < m -> 2 ^ k <= m -> k < Zdigits2 m.
Proof. destruct m as [|p|p]; try lia. intros _. apply digits2_pos_gt. Qed.

(** One alignment step of the rounding: the mantissa is divided by the
    power of two that lifts the exponent to [fexp64]. *)
Lemma shr_fexp_spec (m e : Z) (l : location) :
  0 < m -> -1074 <= e ->
  let e' := Z.max e (fexp64 (Zdigits2 m + e)) in
  snd (shr_fexp prec emax m e l) = e' /\
  shr_m (fst (shr_fexp prec emax m e l)) = m / 2 ^ (e' - e) /\
  0 < m / 2 ^ (e' - e) < 2 ^ 53.
Proof.
  intros Hm He e'. unfold shr_fexp. rewrite fexp64_eq. fold e'.
  pose proof (Zdigits2_bounds m Hm) as [Hl Hu].
  pose proof (Zdigits2_pos m Hm) as Hd.
  assert (Hn : 0 <= e' - e) by (unfold e'; lia).
  assert (Hlow : e' - e <= Zdigits2 m - 1) by (unfold e', fexp64; lia).
  assert (Hup : Zdigits2 m - (e' - e) <= 53) by (unfold e', fexp64; lia).
  pose proof (pow2_pos (e' - e) Hn) as Hp.
  assert (Hq : 0 < m / 2 ^ (e' - e) < 2 ^ 53).
  { split.
    - apply Z.div_str_pos. split; [lia|].
      apply Z.le_trans with (2 ^ (Zdigits2 m - 1)); trivial.
      apply Z.pow_le_mono_r; lia.
    - apply Z.div_lt_upper_bound; trivial.
      apply Z.lt_le_trans with (2 ^ Zdigits2 m); trivial.
      rewrite <- Z.pow_add_r by lia. apply Z.pow_le_mono_r; lia. }
  destruct (fexp64 (Zdigits2 m + e) - e) as [|p|p] eqn:En; cbn [shr fst snd].
  - assert (e' = e) as Ee by (unfold e'; lia). rewrite Ee in *.
    rewrite shr_record_of_loc_m. replace (e - e) with 0 in * by lia.
    rewrite Z.div_1_r in *. auto.
  - assert (e' - e = Z.pos p) as Ee by (unfold e'; lia). rewrite Ee in *.
    rewrite shr_iter_m by (rewrite shr_record_of_loc_m; lia).
    rewrite shr_record_of_loc_m. split; [lia|auto].
  - assert (e' = e) as Ee by (unfold e'; lia). rewrite Ee in *.
    rewrite shr_record_of_loc_m. replace (e - e) with 0 in * by lia.
    rewrite Z.div_1_r in *. auto.
Qed.

Lemma round_nearest_even_bounds (m : Z) (l : location) :
  m <= round_nearest_even m l <= m + 1.
Proof. destruct l as [|[]]; simpl; try lia. destruct (Z.even m); lia. Qed.

(** The result of rounding a positive mantissa: a finite number or an
    overflow of the sign [sx], with the exponent [fexp64] assigns or the
    next one when the mantissa rounds up to a power of two. *)
Lemma binary_round_aux_shape (sx : bool) (m e : Z) (l : location) :
  0 < m -> -1074 <= e ->
  exists (m'' : positive) (e'' : Z),
    binary_round_aux prec emax sx m e l
      = (if e'' <=? 971 then S754_finite sx m'' e'' else S754_infinity sx) /\
    let e1 := Z.max e (fexp64 (Zdigits2 m + e)) in
    e'' = e1 \/ (e'' = e1 + 1 /\ 2 ^ 53 - 1 <= m / 2 ^ (e1 - e)).
Proof.
  intros Hm He. unfold binary_round_aux.
  pose proof (shr_fexp_spec m e l Hm He) as (H1e & H1m & H1b).
  destruct (shr_fexp prec emax m e l) as [r1 e1]. cbn [fst snd] in *.
  set (t := shr_m r1) in *.
  pose proof (round_nearest_even_bounds t (loc_of_shr_record r1)) as Hr.
  set (m1 := round_nearest_even t (loc_of_shr_record r1)) in *.
  assert (Hm1 : 0 < m1) by lia.
  assert (He1 : -1074 <= e1) by (rewrite H1e; lia).
  pose proof (shr_fexp_spec m1 e1 loc_Exact Hm1 He1) as (H2e & H2m & H2b).
  destruct (shr_fexp prec emax m1 e1 loc_Exact) as [r2 e2]. cbn [fst snd] in *.
  destruct (shr_m r2) as [|p|p] eqn:Ep; try lia.
  exists p, e2. split; [reflexivity|].
  cbv zeta. rewrite <- H1m, <- H1e.
  assert (Hd : Zdigits2 m1 <= 54).
  { apply Zdigits2_le; trivial. change (2 ^ 54) with (2 * 2 ^ 53). lia. }
  destruct (Z.le_gt_cases (Zdigits2 m1) 53) as [Hs|Hs].
  - left. rewrite H2e. unfold fexp64. lia.
  - right. assert (Zdigits2 m1 = 54) as E54 by lia.
    pose proof (Zdigits2_bounds m1 Hm1) as [Hl _]. rewrite E54 in Hl.
    change (2 ^ (54 - 1)) with (2 ^ 53) in Hl.
    split; [rewrite H2e, E54; unfold fexp64; lia|lia].
Qed.

Lemma shl_align_spec (m : positive) (e e' : Z) :
  snd (shl_align m e e') = Z.min e e' /\
  Z.pos (fst (shl_align m e e')) = Z.pos m * 2 ^ (e - Z.min e e').
Proof.
  unfold shl_align. destruct (e' - e) as [|d|d] eqn:Ed; cbn [fst snd].
  - replace (Z.min e e') with e by lia. rewrite Z.sub_diag. lia.
  - replace (Z.min e e') with e by lia. rewrite Z.sub_diag. lia.
  - replace (Z.min e e') with e' by lia. replace (e - e') with (Z.pos d) by lia.
    change (Pos.iter xO m d) with (shift_pos d m).
    rewrite shift_pos_correct, Z.pow_pos_fold. lia.
Qed.

Lemma Zdigits2_shift (m k : Z) :
  0 < m -> 0 <= k -> Zdigits2 (m * 2 ^ k) = Zdigits2 m + k.
Proof.
  intros Hm Hk. pose proof (Zdigits2_bounds m Hm) as [Hl Hu].
  pose proof (Zdigits2_pos m Hm) as Hd. pose proof (pow2_pos k Hk) as Hp.
  assert (Hmk : 0 < m * 2 ^ k) by lia.
  apply Z.le_antisymm.
  - apply Zdigits2_le; trivial. rewrite Z.pow_add_r by lia. nia.
  - enough (Zdigits2 m + k - 1 < Zdigits2 (m * 2 ^ k)) by lia.
    apply Zdigits2_gt; trivial.
    replace (Zdigits2 m + k - 1) with (Zdigits2 m - 1 + k) by lia.
    rewrite Z.pow_add_r by lia. nia.
Qed.

(** Rounding a positive mantissa at an exponent that is not below the
    least one. *)
Lemma binary_round_shape (sx : bool) (M : positive) (ez : Z) :
  -1074 <= ez ->
  exists (m'' : positive) (e'' : Z),
    binary_round prec emax sx M ez
      = (if e'' <=? 971 then S754_finite sx m'' e'' else S754_infinity sx) /\
    let E := Z.pos (digits2_pos M) + ez in
    let e2 := Z.min ez (fexp64 E) in
    e'' = fexp64 E \/
    (e'' = fexp64 E + 1 /\ 2 ^ 53 - 1 <= (Z.pos M * 2 ^ (ez - e2)) / 2 ^ (fexp64 E - e2)).
Proof.
  intros He. unfold binary_round. rewrite fexp64_eq.
  set (E := Z.pos (digits2_pos M) + ez).
  pose proof (shl_align_spec M ez (fexp64 E)) as [Hs Hm].
  destruct (shl_align M ez (fexp64 E)) as [mz e2]. cbn [fst snd] in *.
  assert (He2 : -1074 <= e2) by (rewrite Hs; unfold fexp64; lia).
  destruct (binary_round_aux_shape sx (Z.pos mz) e2 loc_Exact) as (m'' & e'' & Hr & Hc);
    [lia|trivial|].
  exists m'', e''. split; [exact Hr|]. cbv zeta in *. fold E.
  assert (Hd : Zdigits2 (Z.pos mz) + e2 = E).
  { rewrite Hm, Zdigits2_shift by lia. cbn [Zdigits2].
    pose proof (eq_refl : E = Z.pos (digits2_pos M) + ez). lia. }
  rewrite Hd in Hc. rewrite <- Hm, <- Hs.
  replace (Z.max e2 (fexp64 E)) with (fexp64 E) in Hc by lia. exact Hc.
Qed.

Lemma bounded_spec (m : positive) (e : Z) :
  bounded prec emax m e = true ->
  -1074 <= e <= 971 /\ Z.pos m < 2 ^ 53.
Proof.
  unfold bounded, canonical_mantissa. rewrite fexp64_eq, andb_true_iff.
  intros [Hc Hb]. apply Z.eqb_eq in Hc. apply Z.leb_le in Hb.
  change (emax - prec) with 971 in Hb.
  split; [unfold fexp64 in Hc; lia|].
  destruct (digits2_pos_bounds m) as [_ Hu].
  apply Z.lt_le_trans with (2 ^ Z.pos (digits2_pos m)); trivial.
  apply Z.pow_le_mono_r; unfold fexp64 in Hc; lia.
Qed.

Lemma binary_round_positive (M : positive) (ez : Z) :
  -1074 <= ez -> SFpositive (binary_round prec emax false M ez).
Proof.
  intros He. destruct (binary_round_shape false M ez He) as (m'' & e'' & -> & _).
  destruct (e'' <=? 971); exact I.
Qed.

(** The sum of two positive numbers is positive. *)
Lemma SFadd_positive (x y : spec_float) :
  valid_binary x = true -> valid_binary y = true ->
  SFnonneg x -> SFpositive y -> SFpositive (SFadd prec emax x y).
Proof.
  intros Vx Vy Hx Hy.
  destruct x as [[]|[]| |[] mx ex], y as [[]|[]| |[] my ey];
    try contradiction; try exact I.
  cbn [valid_binary] in Vx, Vy. apply bounded_spec in Vx, Vy.
  cbn [SFadd cond_Zopp Z.add]. apply binary_round_positive. lia.
Qed.

Lemma SFadd_nonneg (x y : spec_float) :
  valid_binary x = true -> valid_binary y = true ->
  SFnonneg x -> SFnonneg y -> SFnonneg (SFadd prec emax x y).
Proof.
  intros Vx Vy Hx Hy.
  destruct x as [[]|[]| |[] mx ex], y as [[]|[]| |[] my ey];
    try contradiction; try exact I.
  assert (SFpositive (SFadd prec emax (S754_finite false mx ex) (S754_finite false my ey)))
    as H by (now apply SFadd_positive).
  destruct (SFadd _ _ _ _) as [?|[]| |[] ? ?]; try contradiction; exact I.
Qed.

(** A mantissa below [(2^53 - 1) * 2^(971 - ez)] rounds to a finite
    number: the largest binary64 number is not exceeded. *)
Lemma binary_round_finite (sx : bool) (M : positive) (ez : Z) :
  -1074 <= ez <= 971 -> Z.pos M < (2 ^ 53 - 1) * 2 ^ (971 - ez) ->
  SFfinite (binary_round prec emax sx M ez).
Proof.
  intros He HM.
  destruct (binary_round_shape sx M ez) as (m'' & e'' & -> & Hc); [lia|].
  cbv zeta in Hc. set (E := Z.pos (digits2_pos M) + ez) in *.
  pose proof (pow2_pos (971 - ez)) as Hp.
  assert (HE : E <= 1024).
  { enough (Z.pos (digits2_pos M) <= 1024 - ez) by (unfold E; lia).
    apply digits2_pos_le. replace (1024 - ez) with (53 + (971 - ez)) by lia.
    rewrite Z.pow_add_r by lia. nia. }
  enough (e'' <= 971) as Hle by (apply Z.leb_le in Hle; rewrite Hle; exact I).
  destruct Hc as [->|[-> Ht]]; [unfold fexp64; lia|].
  destruct (Z.eq_dec E 1024) as [E1024|]; [|unfold fexp64; lia].
  exfalso. rewrite E1024 in Ht. change (fexp64 1024) with 971 in Ht.
  replace (Z.min ez 971) with ez in Ht by lia.
  rewrite Z.sub_diag, Z.mul_1_r in Ht.
  assert (Z.pos M / 2 ^ (971 - ez) < 2 ^ 53 - 1)
    by (apply Z.div_lt_upper_bound; lia).
  lia.
Qed.

Lemma aligned_mantissa_bound (m : positive) (e ez : Z) :
  bounded prec emax m e = true -> ez <= e ->
  Z.pos (fst (shl_align m e ez)) <= (2 ^ 53 - 1) * 2 ^ (971 - ez).
Proof.
  intros Hb He. apply bounded_spec in Hb as [Hb Hm].
  destruct (shl_align_spec m e ez) as [_ ->].
  replace (Z.min e ez) with ez by lia.
  assert (2 ^ (e - ez) <= 2 ^ (971 - ez)) by (apply Z.pow_le_mono_r; lia).
  pose proof (pow2_pos (e - ez)). nia.
Qed.

(** The difference of two finite numbers that are not negative is finite. *)
Lemma SFsub_finite (x y : spec_float) :
  valid_binary x = true -> valid_binary y = true ->
  SFnonneg x -> SFfinite x -> SFnonneg y -> SFfinite y ->
  SFfinite (SFsub prec emax x y).
Proof.
  intros Vx Vy Nx Fx Ny Fy.
  destruct x as [[]|[]| |[] mx ex], y as [[]|[]| |[] my ey];
    try contradiction; try exact I.
  cbn [valid_binary] in Vx, Vy. cbn [SFsub cond_Zopp].
  pose proof (aligned_mantissa_bound mx ex (Z.min ex ey) Vx (Z.le_min_l _ _)) as Bx.
  pose proof (aligned_mantissa_bound my ey (Z.min ex ey) Vy (Z.le_min_r _ _)) as By.
  pose proof (proj1 (bounded_spec _ _ Vx)) as Ex.
  pose proof (proj1 (bounded_spec _ _ Vy)) as Ey.
  set (a := fst (shl_align mx ex (Z.min ex ey))) in *.
  set (b := fst (shl_align my ey (Z.min ex ey))) in *.
  destruct (Z.pos a - Z.pos b) as [|M|M] eqn:EM; cbn [binary_normalize].
  - exact I.
  - apply binary_round_finite; lia.
  - apply binary_round_finite; lia.
Qed.

Lemma SFdiv_core_nonneg (mx my : positive) (ex ey : Z) :
  0 <= fst (fst (SFdiv_core_binary prec emax (Z.pos mx) ex (Z.pos my) ey)).
Proof.
  unfold SFdiv_core_binary.
  set (s := _ - _ - _).
  set (m' := match s with Z.pos _ => _ | 0 => _ | Z.neg _ => 0 end).
  assert (Hm : 0 <= m').
  { unfold m'. destruct s; try lia. apply Z.shiftl_nonneg. lia. }
  pose proof (Z.div_pos m' (Z.pos my) Hm ltac:(lia)) as Hq.
  unfold Z.div in Hq. destruct (Z.div_eucl m' (Z.pos my)) as [q r]. exact Hq.
Qed.

Open Scope float_scope.

Lemma is_finite_spec (x : float) : is_finite x = true <-> SFfinite (Prim2SF x).
Proof.
  unfold is_finite, is_infinity, is_nan. rewrite !FloatAxioms.eqb_spec, FloatAxioms.abs_spec.
  change (Prim2SF infinity) with (S754_infinity false).
  unfold SFeqb. destruct (Prim2SF x) as [?|[]| |[] m e] eqn:E; simpl; try easy;
    rewrite Z.compare_refl;
    change (Pos.compare_cont Eq m m) with (Pos.compare m m);
    rewrite Pos.compare_refl; easy.
Qed.

Lemma add_number_finite_r (x y : float) :
  is_nan x = false -> is_finite y = true -> is_nan (x + y) = false.
Proof.
  rewrite !is_nan_spec, is_finite_spec, FloatAxioms.add_spec. apply SFadd_number_finite_r.
Qed.

Lemma add_number_finite_l (x y : float) :
  is_finite x = true -> is_nan y = false -> is_nan (x + y) = false.
Proof.
  rewrite !is_nan_spec, is_finite_spec, FloatAxioms.add_spec. apply SFadd_number_finite_l.
Qed.

Lemma mul_number_finite (x y : float) :
  is_finite x = true -> is_finite y = true -> is_nan (x * y) = false.
Proof.
  rewrite is_nan_spec, !is_finite_spec, FloatAxioms.mul_spec. apply SFmul_number_finite.
Qed.

Lemma nonneg_spec (x : float) : (0 <=? x) = true -> SFnonneg (Prim2SF x).
Proof.
  rewrite FloatAxioms.leb_spec. change (Prim2SF 0) with (S754_zero false).
  destruct (Prim2SF x) as [?|[]| |[] ? ?]; cbn; try discriminate; trivial.
Qed.

Lemma SFdiv_number (n d : spec_float) :
  SFfinite n -> SFpositive d -> SFnumber (SFdiv prec emax n d).
Proof.
  intros Hn Hd.
  destruct n as [?|?| |sn mn en], d as [?|[]| |[] md ed];
    try contradiction; try discriminate.
  cbn [SFdiv].
  pose proof (SFdiv_core_nonneg mn md en ed) as Hq.
  destruct (SFdiv_core_binary prec emax (Z.pos mn) en (Z.pos md) ed) as [[q e] l].
  now apply binary_round_aux_number.
Qed.

(** [(a - b) / (a + b + eps)] is a number when [a] and [b] are finite and
    not negative and [eps] is positive: the difference is finite and the
    denominator positive. *)
Lemma normalized_ratio_number (a b eps : float) :
  is_finite a = true -> (0 <=? a) = true ->
  is_finite b = true -> (0 <=? b) = true ->
  SFpositive (Prim2SF eps) ->
  is_nan ((a - b) / (a + b + eps)) = false.
Proof.
  intros Fa Na Fb Nb He.
  apply is_finite_spec in Fa, Fb. apply nonneg_spec in Na, Nb.
  apply is_nan_spec. rewrite FloatAxioms.div_spec. apply SFdiv_number.
  - rewrite FloatAxioms.sub_spec. apply SFsub_finite; auto using Prim2SF_valid.
  - rewrite FloatAxioms.add_spec. apply SFadd_positive; auto using Prim2SF_valid.
    rewrite FloatAxioms.add_spec. apply SFadd_nonneg; auto using Prim2SF_valid.
Qed.

End F64Facts.

(** ** The clipping kernel *)

Section Clip.
Import F64Facts.
Variables lo hi : float.
Hypothesis lo_hi : (lo <=? hi) = true.

Lemma max_lower (x : float) : is_nan x = false -> (lo <=? Np.max_ x lo) = true.
Proof.
  intros Hx. unfold Np.max_. rewrite Hx.
  destruct (lo <? x) eqn:E.
  - now apply ltb_leb.
  - apply leb_refl. exact (leb_number_l _ _ lo_hi).
Qed.

Lemma max_number (x : float) : is_nan x = false -> is_nan (Np.max_ x lo) = false.
Proof. intros Hx. exact (leb_number_r _ _ (max_lower x Hx)). Qed.

Lemma clip1_within (x : float) :
  is_nan x = false -> F64.within lo hi (Np.clip1 x lo hi) = true.
Proof.
  intros Hx. unfold F64.within, Np.clip1, Np.min_.
  rewrite (max_number x Hx). pose proof (max_lower x Hx) as Hl.
  destruct (Np.max_ x lo <? hi) eqn:E.
  - rewrite Hl. now apply ltb_leb.
  - rewrite lo_hi. apply leb_refl. exact (leb_number_r _ _ lo_hi).
Qed.

Lemma clip1_nan (x : float) : is_nan x = true -> Np.clip1 x lo hi = x.
Proof.
  intros Hx. unfold Np.clip1, Np.min_, Np.max_. now rewrite Hx, Hx.
Qed.

Lemma clip1_nan_or_within (x : float) :
  is_nan (Np.clip1 x lo hi) || F64.within lo hi (Np.clip1 x lo hi) = true.
Proof.
  destruct (is_nan x) eqn:Hx.
  - rewrite (clip1_nan x Hx), Hx. reflexivity.
  - rewrite (clip1_within x Hx). apply orb_true_r.
Qed.
End Clip.

(** ** Growth stage and nitrogen level *)

Lemma ltb_false_above (c d x : float) :
  (c <? d) = true -> (d <=? x) = true -> (x <? c) = false.
Proof.
  intros Hcd Hdx. destruct (x <? c) eqn:E; trivial.
  rewrite <- (F64Facts.leb_not_ltb _ _ Hdx). symmetry.
  exact (F64Facts.ltb_trans _ _ _ E Hcd).
Qed.

(** C2: the growth stage follows the threshold chain, first match winning:
    below 0.3 vegetative, from 0.3 up to 0.5 tuber_initiation, from 0.5 up to
    0.7 tuber_bulking, from 0.7 on maturation; the four boundary samples
    0.29, 0.3, 0.69 and 0.7 fall as the table says. *)
Theorem growth_stage_thresholds (ndvi_mean : float) :
  ((ndvi_mean <? 0.3) = true -> predict_growth_stage ndvi_mean = "vegetative") /\
  ((0.3 <=? ndvi_mean) = true -> (ndvi_mean <? 0.5) = true ->
   predict_growth_stage ndvi_mean = "tuber_initiation") /\
  ((0.5 <=? ndvi_mean) = true -> (ndvi_mean <? 0.7) = true ->
   predict_growth_stage ndvi_mean = "tuber_bulking") /\
  ((0.7 <=? ndvi_mean) = true -> predict_growth_stage ndvi_mean = "maturation") /\
  predict_growth_stage 0.29 = "vegetative" /\
  predict_growth_stage 0.3 = "tuber_initiation" /\
  predict_growth_stage 0.69 = "tuber_bulking" /\
  predict_growth_stage 0.7 = "maturation".
Proof.
  unfold predict_growth_stage. repeat split; try reflexivity.
  - intros ->. reflexivity.
  - intros H3 H5. rewrite (F64Facts.leb_not_ltb _ _ H3), H5. reflexivity.
  - intros H5 H7.
    rewrite (ltb_false_above 0.3 0.5 _ eq_refl H5), (F64Facts.leb_not_ltb _ _ H5), H7.
    reflexivity.
  - intros H7.
    rewrite (ltb_false_above 0.3 0.7 _ eq_refl H7), (ltb_false_above 0.5 0.7 _ eq_refl H7),
      (F64Facts.leb_not_ltb _ _ H7).
    reflexivity.
Qed.

Lemma growth_stage_thresholds_witness :
  predict_growth_stage 0.1 = "vegetative" /\
  predict_growth_stage 0.4 = "tuber_initiation" /\
  predict_growth_stage 0.6 = "tuber_bulking" /\
  predict_growth_stage 0.9 = "maturation".
Proof.
  split; [|split; [|split]].
  - apply (proj1 (growth_stage_thresholds 0.1)). reflexivity.
  - apply (proj1 (proj2 (growth_stage_thresholds 0.4))); reflexivity.
  - apply (proj1 (proj2 (proj2 (growth_stage_thresholds 0.6)))); reflexivity.
  - apply (proj1 (proj2 (proj2 (proj2 (growth_stage_thresholds 0.9))))). reflexivity.
Defined.

Lemma nitrogen_sum_number (ndvi_mean noise : float) :
  is_finite ndvi_mean = true -> is_finite noise = true ->
  is_nan (80 + ndvi_mean * 100 + noise) = false.
Proof.
  intros Hx Hn.
  apply F64Facts.add_number_finite_r; trivial.
  apply F64Facts.add_number_finite_l; [reflexivity|].
  apply F64Facts.mul_number_finite; [assumption|reflexivity].
Qed.

(** C3 (amended): the nitrogen level is
    [clip(80 + 100 * ndvi_mean + noise, 40, 200)]; it lies in [[40, 200]]
    for every finite ndvi_mean and every finite noise, whatever its
    magnitude, and more generally whenever the sum is a number; with noise 0
    and ndvi_mean 0.5 it is exactly 130. *)
Theorem nitrogen_level_clipped (ndvi_mean noise : float) :
  predict_nitrogen_level ndvi_mean noise
    = Np.clip1 (80 + ndvi_mean * 100 + noise) 40 200 /\
  (is_finite ndvi_mean = true -> is_finite noise = true ->
   F64.within 40 200 (predict_nitrogen_level ndvi_mean noise) = true) /\
  (is_nan (80 + ndvi_mean * 100 + noise) = false ->
   F64.within 40 200 (predict_nitrogen_level ndvi_mean noise) = true) /\
  predict_nitrogen_level 0.5 0 = 130.
Proof.
  unfold predict_nitrogen_level. repeat split.
  - intros Hx Hn. apply clip1_within; [reflexivity|].
    now apply nitrogen_sum_number.
  - intros H. now apply clip1_within.
Qed.

Lemma nitrogen_level_clipped_witness :
  F64.within 40 200 (predict_nitrogen_level 0.9 1000) = true /\
  F64.within 40 200 (predict_nitrogen_level 0.1 (-1000)) = true.
Proof.
  split.
  - apply (proj1 (proj2 (nitrogen_level_clipped 0.9 1000))); reflexivity.
  - apply (proj1 (proj2 (proj2 (nitrogen_level_clipped 0.1 (-1000))))); reflexivity.
Defined.

(** C3 as stated fails: a NaN passes through the clipping, so an NDVI
    mean that is a NaN, as the mean of an empty selection is, gives a
    nitrogen level outside [[40, 200]]; so does a NaN drawn as noise. *)
Lemma nitrogen_level_nan :
  predict_nitrogen_level nan 0 = nan /\
  predict_nitrogen_level 0.5 nan = nan /\
  F64.within 40 200 nan = false.
Proof. repeat split. Qed.

(** ** Recommendations *)

Lemma threshold_low : NUTRIENT_THRESHOLDS !!! "nitrogen_low" = 80.
Proof. reflexivity. Qed.

Lemma threshold_medium : NUTRIENT_THRESHOLDS !!! "nitrogen_medium" = 120.
Proof. reflexivity. Qed.

(** C10: the recommendation echoes the growth stage and the nitrogen level,
    has exactly the keys growth_stage, nitrogen_level, nitrogen_status and
    recommendations, and its status is low below 80, medium from 80 up to
    120, high otherwise. *)
Theorem recommendations_frame (growth_stage : string) (nitrogen_level : float) :
  let r := generate_recommendations growth_stage nitrogen_level in
  dict_get r "growth_stage" = Some (PStr growth_stage) /\
  dict_get r "nitrogen_level" = Some (PNum nitrogen_level) /\
  dict_keys r = ["growth_stage"; "nitrogen_level"; "nitrogen_status"; "recommendations"] /\
  nitrogen_status r =
    Some (if nitrogen_level <? 80 then "low"
          else if (80 <=? nitrogen_level) && (nitrogen_level <? 120) then "medium"
               else "high").
Proof.
  repeat split.
  unfold generate_recommendations, nitrogen_status. cbn [dict_set dict_get String.eqb Ascii.eqb Bool.eqb].
  rewrite threshold_low, threshold_medium. cbn.
  destruct (nitrogen_level <? 80) eqn:E80; trivial.
  destruct (nitrogen_level <? 120) eqn:E120; [|now rewrite andb_false_r].
  rewrite (F64Facts.leb_total nitrogen_level 80); trivial.
  exact (F64Facts.ltb_number_l _ _ E120).
Qed.

Lemma round_half_even_nearest (m : positive) (e : Z) :
  nearest_integer m e (Py.round_half_even m e).
Proof.
  destruct e as [|p|p]; simpl; trivial.
  assert (Hd : (0 < Z.pow_pos 2 p)%Z) by (rewrite Z.pow_pos_fold; apply Z.pow_pos_nonneg; lia).
  pose proof (Z.div_mod (Z.pos m) _ (Z.neq_sym _ _ (Z.lt_neq _ _ Hd))) as Hm.
  pose proof (Z.mod_pos_bound (Z.pos m) _ Hd) as Hr.
  set (d := Z.pow_pos 2 p) in *.
  set (q := (Z.pos m / d)%Z) in *. set (r := (Z.pos m mod d)%Z) in *.
  destruct (Z.compare_spec (2 * r) d) as [E|E|E]; [destruct (Z.even q)| |]; nia.
Qed.

Lemma max0_nonneg (x : float) : (0 <=? Py.max0 x) = true.
Proof.
  unfold Py.max0. destruct (0 <? x) eqn:E; [|reflexivity].
  now apply F64Facts.ltb_leb.
Qed.

Lemma whole_kg_finite (x : float) (s : bool) (m : positive) (e : Z) :
  Prim2SF (Py.max0 x) = S754_finite s m e ->
  whole_kg x = Py.str_of_Z (Py.round_half_even m e).
Proof.
  intros H. unfold whole_kg, Py.format_0f. rewrite H.
  pose proof (max0_nonneg x) as Hp. rewrite FloatAxioms.leb_spec, H in Hp.
  destruct s; [discriminate|reflexivity].
Qed.

(** C4 (amended): every fertilizer sentence carries [max(0, target -
    nitrogen_level)] printed as a whole number of kg/ha, the nearest integer
    with ties to even, against the target 120 for vegetative, 140 for
    tuber_initiation and 160 (plus 60 K) for tuber_bulking; maturation asks
    for no nitrogen; [('vegetative', 100)] shows 20 and
    [('tuber_bulking', 200)] shows 0. *)
Theorem fertilizer_dose_whole_kg (nitrogen_level : float) :
  fertilizer_text (generate_recommendations "vegetative" nitrogen_level)
    = Some ("Apply " ++ whole_kg (120 - nitrogen_level) ++ " kg/ha N as basal dose") /\
  fertilizer_text (generate_recommendations "tuber_initiation" nitrogen_level)
    = Some ("Apply " ++ whole_kg (140 - nitrogen_level) ++ " kg/ha N as top dressing") /\
  fertilizer_text (generate_recommendations "tuber_bulking" nitrogen_level)
    = Some ("Apply " ++ whole_kg (160 - nitrogen_level) ++ " kg/ha N + 60 kg/ha K") /\
  fertilizer_text (generate_recommendations "maturation" nitrogen_level)
    = Some "No additional N required, focus on K for quality" /\
  (forall (deficit : float) (s : bool) (m : positive) (e : Z),
      Prim2SF (Py.max0 deficit) = S754_finite s m e ->
      exists n : Z, whole_kg deficit = Py.str_of_Z n /\ nearest_integer m e n) /\
  (forall deficit : float, (0 <? deficit) = false -> whole_kg deficit = "0") /\
  fertilizer_text (generate_recommendations "vegetative" 100)
    = Some "Apply 20 kg/ha N as basal dose" /\
  fertilizer_text (generate_recommendations "tuber_bulking" 200)
    = Some "Apply 0 kg/ha N + 60 kg/ha K".
Proof.
  split; [reflexivity|]. split; [reflexivity|]. split; [reflexivity|].
  split; [reflexivity|]. split; [|split; [|split; reflexivity]].
  - intros deficit s m e H. exists (Py.round_half_even m e). split.
    + exact (whole_kg_finite _ _ _ _ H).
    + apply round_half_even_nearest.
  - intros deficit H. unfold whole_kg, Py.max0. rewrite H. reflexivity.
Qed.

Lemma fertilizer_dose_whole_kg_witness :
  whole_kg (120 - 100.7) = "19" /\ whole_kg (120 - 130) = "0".
Proof.
  split.
  - destruct (proj1 (proj2 (proj2 (proj2 (proj2 (fertilizer_dose_whole_kg 0)))))
                (120 - 100.7) false 5432467050515660%positive (-48)%Z eq_refl) as [n [Hn Hr]].
    rewrite Hn. change "19" with (Py.str_of_Z 19). f_equal.
    unfold nearest_integer in Hr.
    change (Z.pow_pos 2 48) with 281474976710656%Z in Hr. lia.
  - apply (proj1 (proj2 (proj2 (proj2 (proj2 (proj2 (fertilizer_dose_whole_kg 0))))))).
    reflexivity.
Defined.

(** C4 as stated fails: at nitrogen level 119.5 the deficit to the
    vegetative target is 0.5 kg/ha, and the sentence shows 0. *)
Lemma fertilizer_dose_not_exact :
  fertilizer_text (generate_recommendations "vegetative" 119.5)
    = Some "Apply 0 kg/ha N as basal dose" /\
  shown_dose "Apply 0 kg/ha N as basal dose" = Some 0%Z /\
  Py.max0 (120 - 119.5) = 0.5 /\
  (0.5 =? 0) = false.
Proof. repeat split. Qed.

(** ** Vegetation indices *)

Section Broadcast.
Variable f : float -> float -> float.

Lemma broadcast_same_length (a b : Np.ndarray) :
  length a = length b -> Np.broadcast f a b = Ok (zip_with f a b).
Proof. intros H. unfold Np.broadcast. now rewrite H, Nat.eqb_refl. Qed.

Lemma zip_with_same_length (a b : Np.ndarray) :
  length a = length b -> length (zip_with f a b) = length a.
Proof. intros H. rewrite length_zip_with. lia. Qed.
End Broadcast.

Ltac same_length :=
  unfold Np.scalar_mul, Np.add_scalar;
  repeat (rewrite length_map || rewrite length_zip_with); lia.

Lemma normalized_difference_pixels (a b : Np.ndarray) :
  length a = length b -> normalized_difference a b = Ok (zip_with nd_pixel a b).
Proof.
  intros H. unfold normalized_difference, Np.sub, Np.add, Np.divide.
  rewrite !(broadcast_same_length _ a b) by assumption. cbn.
  rewrite broadcast_same_length by same_length.
  f_equal. unfold Np.add_scalar.
  revert b H. induction a as [|x a IH]; intros [|y b] H; try discriminate; trivial.
  cbn. f_equal. apply IH. now injection H.
Qed.

Lemma enhanced_vegetation_pixels (a b c : Np.ndarray) :
  length a = length b -> length a = length c ->
  enhanced_vegetation a b c = Ok (zip_with3 evi_pixel a b c).
Proof.
  intros Hb Hc. unfold enhanced_vegetation, Np.sub, Np.add, Np.divide.
  rewrite (broadcast_same_length _ a b) by assumption. cbn.
  rewrite (broadcast_same_length _ a (Np.scalar_mul 6 b)) by same_length. cbn.
  rewrite (broadcast_same_length _ _ (Np.scalar_mul 7.5 c)) by same_length. cbn.
  rewrite broadcast_same_length by same_length.
  f_equal. unfold Np.add_scalar, Np.scalar_mul.
  revert b c Hb Hc.
  induction a as [|x a IH]; intros [|y b] [|z c] Hb Hc; try discriminate; trivial.
  cbn. f_equal. apply IH; [now injection Hb|now injection Hc].
Qed.

Ltac index_cases bands :=
  unfold compute_vegetation_indices;
  destruct (bands !! "B08") as [b08|] eqn:E08;
  destruct (bands !! "B04") as [b04|] eqn:E04;
  destruct (bands !! "B05") as [b05|] eqn:E05;
  destruct (bands !! "B02") as [b02|] eqn:E02;
  cbn;
  repeat match goal with
    | |- context [normalized_difference ?a ?b] =>
        destruct (normalized_difference a b) eqn:?; cbn
    | |- context [enhanced_vegetation ?a ?b ?c] =>
        destruct (enhanced_vegetation a b c) eqn:?; cbn
    end.

Lemma compute_missing_B08 (bands : BandSet) :
  bands !! "B08" = None -> compute_vegetation_indices bands = Ok ∅.
Proof.
  intros H. unfold compute_vegetation_indices. rewrite H. reflexivity.
Qed.

Lemma compute_ok_keys (bands : BandSet) (r : IndexSet) :
  compute_vegetation_indices bands = Ok r ->
  (is_Some (r !! "NDVI") <-> is_Some (bands !! "B08") /\ is_Some (bands !! "B04")) /\
  (is_Some (r !! "NDRE") <-> is_Some (bands !! "B08") /\ is_Some (bands !! "B05")) /\
  (is_Some (r !! "EVI") <->
     is_Some (bands !! "B08") /\ is_Some (bands !! "B04") /\ is_Some (bands !! "B02")).
Proof.
  index_cases bands; intros [= <-]; rewrite ?insert_insert_eq;
    rewrite ?lookup_insert_eq, ?lookup_insert_ne, ?lookup_empty by done;
    rewrite <- ?not_eq_None_Some, ?is_Some_alt; intuition (try discriminate; eauto).
Qed.

Lemma compute_ok_clipped (bands : BandSet) (r : IndexSet) (k : string) (v : Np.ndarray) :
  compute_vegetation_indices bands = Ok r -> r !! k = Some v ->
  exists v0 : Np.ndarray, v = Np.clip v0 (-1) 1.
Proof.
  index_cases bands; intros [= <-] Hk; rewrite ?insert_insert_eq in Hk;
    repeat match type of Hk with
      | <[?i:=_]> _ !! k = Some _ =>
          destruct (decide (i = k)) as [<-|];
          [rewrite lookup_insert_eq in Hk; injection Hk as <-; eauto
          |rewrite lookup_insert_ne in Hk by assumption]
      end;
    try (rewrite lookup_empty in Hk; discriminate).
Qed.

Lemma compute_same_shape (bands : BandSet) :
  same_shape bands ->
  exists r : IndexSet,
    compute_vegetation_indices bands = Ok r /\
    r !! "NDVI" = ndvi_of bands /\ r !! "NDRE" = ndre_of bands /\ r !! "EVI" = evi_of bands /\
    forall k : string, k <> "NDVI" -> k <> "NDRE" -> k <> "EVI" -> r !! k = None.
Proof.
  intros [n Hn]. unfold compute_vegetation_indices, ndvi_of, ndre_of, evi_of.
  destruct (bands !! "B08") as [b08|] eqn:E08;
    destruct (bands !! "B04") as [b04|] eqn:E04;
    destruct (bands !! "B05") as [b05|] eqn:E05;
    destruct (bands !! "B02") as [b02|] eqn:E02;
    repeat match goal with
      | H : bands !! _ = Some _ |- _ => apply Hn in H
      end;
    unfold Np.astype_float;
    rewrite ?normalized_difference_pixels, ?enhanced_vegetation_pixels by congruence;
    cbn; eexists; (split; [reflexivity|]);
    rewrite ?insert_insert_eq;
    repeat split;
    try (intros k H1 H2 H3);
    rewrite ?lookup_insert_eq, ?lookup_insert_ne, ?lookup_empty by done;
    reflexivity.
Qed.

(** C5: a missing band makes the index absent, not an error: without B08 the
    result is the empty index set; whenever a result is returned, each index
    is present exactly when all its bands are; and for rasters of one shape
    a result is returned whatever bands are missing. *)
Theorem missing_band_omits_index (bands : BandSet) :
  (bands !! "B08" = None ->
   compute_vegetation_indices bands = Ok ∅ /\
   (∅ : IndexSet) !! "NDVI" = None /\ (∅ : IndexSet) !! "NDRE" = None /\
   (∅ : IndexSet) !! "EVI" = None) /\
  (forall r : IndexSet,
      compute_vegetation_indices bands = Ok r ->
      (is_Some (r !! "NDVI") <-> is_Some (bands !! "B08") /\ is_Some (bands !! "B04")) /\
      (is_Some (r !! "NDRE") <-> is_Some (bands !! "B08") /\ is_Some (bands !! "B05")) /\
      (is_Some (r !! "EVI") <->
         is_Some (bands !! "B08") /\ is_Some (bands !! "B04") /\ is_Some (bands !! "B02"))) /\
  (same_shape bands -> exists r : IndexSet, compute_vegetation_indices bands = Ok r).
Proof.
  split; [|split].
  - intros H. split; [now apply compute_missing_B08|]. now rewrite !lookup_empty.
  - intros r. apply compute_ok_keys.
  - intros H. destruct (compute_same_shape bands H) as [r [Hr _]]. eauto.
Qed.

Lemma same_shape_scenario : same_shape Sample.scenario.
Proof.
  exists 1%nat. intros k a H. unfold Sample.scenario in H.
  repeat (apply lookup_insert_Some in H as [[_ <-]|[_ H]]; [reflexivity|]).
  apply lookup_singleton_Some in H as [_ <-]. reflexivity.
Qed.

Lemma missing_band_omits_index_witness :
  compute_vegetation_indices Sample.no_nir = Ok ∅ /\
  exists r : IndexSet, compute_vegetation_indices Sample.scenario = Ok r.
Proof.
  split.
  - apply (proj1 (missing_band_omits_index Sample.no_nir)). reflexivity.
  - apply (proj2 (proj2 (missing_band_omits_index Sample.scenario))).
    exact same_shape_scenario.
Defined.

Lemma clip_nan_or_unit (v : Np.ndarray) : forallb nan_or_unit (Np.clip v (-1) 1) = true.
Proof.
  induction v as [|x v IH]; trivial. cbn [Np.clip map forallb].
  fold (Np.clip v (-1) 1). rewrite IH, andb_true_r.
  apply (clip1_nan_or_within (-1) 1). reflexivity.
Qed.

Lemma zip_with_replicate_same {A B C : Type} (f : A -> B -> C) (n : nat) (x : A) (y : B) :
  zip_with f (replicate n x) (replicate n y) = replicate n (f x y).
Proof. induction n as [|n IH]; cbn; [|rewrite IH]; reflexivity. Qed.

Lemma zip_with3_replicate {A B C D : Type} (f : A -> B -> C -> D) (n : nat) x y z :
  zip_with3 f (replicate n x) (replicate n y) (replicate n z) = replicate n (f x y z).
Proof. induction n as [|n IH]; cbn; [|rewrite IH]; reflexivity. Qed.

Lemma clip_replicate (n : nat) (x lo hi : float) :
  Np.clip (replicate n x) lo hi = replicate n (Np.clip1 x lo hi).
Proof. unfold Np.clip. induction n as [|n IH]; cbn; [|rewrite IH]; reflexivity. Qed.

Lemma zero_bands_zero_indices (bands : BandSet) (n : nat) (r : IndexSet) :
  (forall (k : string) (a : Np.ndarray), bands !! k = Some a -> a = replicate n 0) ->
  r !! "NDVI" = ndvi_of bands -> r !! "NDRE" = ndre_of bands -> r !! "EVI" = evi_of bands ->
  (forall k : string, k <> "NDVI" -> k <> "NDRE" -> k <> "EVI" -> r !! k = None) ->
  forall (k : string) (v : Np.ndarray), r !! k = Some v -> v = replicate n 0.
Proof.
  intros Hz H1 H2 H3 Hother k v Hk.
  destruct (decide (k = "NDVI")) as [->|N1]; [|destruct (decide (k = "NDRE")) as [->|N2];
    [|destruct (decide (k = "EVI")) as [->|N3]]].
  - rewrite H1 in Hk. unfold ndvi_of in Hk.
    destruct (bands !! "B08") as [a|] eqn:Ea; [|discriminate].
    destruct (bands !! "B04") as [b|] eqn:Eb; [|discriminate].
    apply Hz in Ea, Eb. subst a b. injection Hk as <-.
    now rewrite zip_with_replicate_same, clip_replicate.
  - rewrite H2 in Hk. unfold ndre_of in Hk.
    destruct (bands !! "B08") as [a|] eqn:Ea; [|discriminate].
    destruct (bands !! "B05") as [b|] eqn:Eb; [|discriminate].
    apply Hz in Ea, Eb. subst a b. injection Hk as <-.
    now rewrite zip_with_replicate_same, clip_replicate.
  - rewrite H3 in Hk. unfold evi_of in Hk.
    destruct (bands !! "B08") as [a|] eqn:Ea; [|discriminate].
    destruct (bands !! "B04") as [b|] eqn:Eb; [|discriminate].
    destruct (bands !! "B02") as [c|] eqn:Ec; [|discriminate].
    apply Hz in Ea, Eb, Ec. subst a b c. injection Hk as <-.
    now rewrite zip_with3_replicate, clip_replicate.
  - rewrite Hother in Hk by assumption. discriminate.
Qed.

Lemma clip_normalized_within (a b : Np.ndarray) :
  forallb finite_nonneg a = true -> forallb finite_nonneg b = true ->
  forallb (F64.within (-1) 1) (Np.clip (zip_with nd_pixel a b) (-1) 1) = true.
Proof.
  revert b. induction a as [|x a IH]; intros [|y b] Ha Hb; trivial.
  cbn [forallb] in Ha, Hb. apply andb_true_iff in Ha as [Hx Ha], Hb as [Hy Hb].
  apply andb_true_iff in Hx as [Fx Nx], Hy as [Fy Ny].
  cbn [zip_with Np.clip map forallb]. fold (Np.clip (zip_with nd_pixel a b) (-1) 1).
  rewrite (IH b Ha Hb), andb_true_r.
  apply clip1_within; [reflexivity|].
  apply F64Facts.normalized_ratio_number; trivial. exact I.
Qed.

Lemma normalized_indices_within (bands : BandSet) (near other : string)
  (v : Np.ndarray) :
  all_pixels finite_nonneg bands ->
  (nir ← bands !! near; x ← bands !! other;
   Some (Np.clip (zip_with nd_pixel nir x) (-1) 1)) = Some v ->
  forallb (F64.within (-1) 1) v = true.
Proof.
  intros Hp Hv.
  destruct (bands !! near) as [a|] eqn:Ea; [|discriminate].
  destruct (bands !! other) as [b|] eqn:Eb; [|discriminate].
  injection Hv as <-. apply clip_normalized_within; eauto.
Qed.

(** C1 (amended): every value of NDVI, NDRE and EVI is clipped, so it lies in
    [[-1, 1]] unless it is a NaN, and it is never infinite.  For rasters of
    one shape a result is returned; when the band values are finite and not
    negative, NDVI and NDRE are numbers in [[-1, 1]], their denominator
    being positive thanks to the epsilon; and when all band values are zero
    all indices are zero. *)
Theorem indices_clipped (bands : BandSet) :
  (forall (r : IndexSet) (k : string) (v : Np.ndarray),
      compute_vegetation_indices bands = Ok r -> r !! k = Some v ->
      forallb nan_or_unit v = true) /\
  (same_shape bands ->
   exists r : IndexSet,
     compute_vegetation_indices bands = Ok r /\
     (all_pixels finite_nonneg bands ->
      forall (k : string) (v : Np.ndarray),
        k = "NDVI" \/ k = "NDRE" -> r !! k = Some v ->
        forallb (F64.within (-1) 1) v = true) /\
     forall n : nat,
       (forall (k : string) (a : Np.ndarray), bands !! k = Some a -> a = replicate n 0) ->
       forall (k : string) (v : Np.ndarray), r !! k = Some v -> v = replicate n 0).
Proof.
  split.
  - intros r k v Hr Hk.
    destruct (compute_ok_clipped bands r k v Hr Hk) as [v0 ->].
    apply clip_nan_or_unit.
  - intros Hs. destruct (compute_same_shape bands Hs) as (r & Hr & H1 & H2 & H3 & Ho).
    exists r. split; [assumption|]. split.
    + intros Hp k v [->| ->] Hk.
      * rewrite H1 in Hk. exact (normalized_indices_within bands "B08" "B04" v Hp Hk).
      * rewrite H2 in Hk. exact (normalized_indices_within bands "B08" "B05" v Hp Hk).
    + intros n Hz. now apply (zero_bands_zero_indices bands n r).
Qed.

Lemma zeros_are_zero (k : string) (a : Np.ndarray) :
  Sample.zeros !! k = Some a -> a = replicate 2 0.
Proof.
  intros H. unfold Sample.zeros in H.
  repeat (apply lookup_insert_Some in H as [[_ <-]|[_ H]]; [reflexivity|]).
  apply lookup_singleton_Some in H as [_ <-]. reflexivity.
Qed.

Lemma same_shape_zeros : same_shape Sample.zeros.
Proof.
  exists 2%nat. intros k a H. now rewrite (zeros_are_zero k a H).
Qed.

Lemma indices_clipped_witness :
  exists r : IndexSet,
    compute_vegetation_indices Sample.zeros = Ok r /\
    (forall (k : string) (v : Np.ndarray),
        k = "NDVI" \/ k = "NDRE" -> r !! k = Some v ->
        forallb (F64.within (-1) 1) v = true) /\
    forall (k : string) (v : Np.ndarray), r !! k = Some v -> v = [0; 0].
Proof.
  destruct (proj2 (indices_clipped Sample.zeros) same_shape_zeros) as (r & Hr & Hb & Hz).
  exists r. split; [exact Hr|]. split.
  - apply Hb. intros k a H. rewrite (zeros_are_zero k a H). reflexivity.
  - exact (Hz 2%nat zeros_are_zero).
Defined.

(** C1 as stated fails: with the finite value 2 in the bands B08, B04 and
    B02 the denominator of EVI is 2 + 12 - 15 + 1 = 0 under a zero
    numerator, and the clipped EVI is a NaN, outside [[-1, 1]]; and the
    epsilon does not keep the NDVI denominator from vanishing for finite
    negative values. *)
Lemma evi_nan_for_finite_bands :
  all_pixels finite_nonneg Sample.twos /\
  evi_pixel 2 2 2 = nan /\
  computed_index Sample.twos "EVI" = Some [nan] /\
  forallb (F64.within (-1) 1) [nan] = false /\
  is_finite (-5e-9) = true /\
  Np.clip1 (nd_pixel (-5e-9) (-5e-9)) (-1) 1 = nan.
Proof.
  split; [|repeat split].
  intros k a H. unfold Sample.twos in H.
  repeat (apply lookup_insert_Some in H as [[_ <-]|[_ H]]; [reflexivity|]).
  apply lookup_singleton_Some in H as [_ <-]. reflexivity.
Qed.

(** C9 (amended): for the one-pixel band set B02=100, B04=200, B05=150,
    B08=800 the index set holds NDVI = 0.599999999994, which is 0.6 up to
    the epsilon of the denominator, NDRE = 0.68421052630858725, which is
    0.68 to two decimals, and EVI = 1, the clipped value of
    1.1990407673860912; all three lie in [[-1, 1]], and an NDVI mean of 0.6
    is classified tuber_bulking. *)
Theorem scenario_indices :
  computed_index Sample.scenario "NDVI" = Some [0.599999999994] /\
  F64.close_to 0.6 1e-11 0.599999999994 = true /\
  computed_index Sample.scenario "NDRE" = Some [0.68421052630858725] /\
  F64.close_to 0.68 0.005 0.68421052630858725 = true /\
  evi_pixel 800 200 100 = 1.1990407673860912 /\
  computed_index Sample.scenario "EVI" = Some [1] /\
  forallb (F64.within (-1) 1) [0.599999999994; 0.68421052630858725; 1] = true /\
  predict_growth_stage 0.6 = "tuber_bulking".
Proof. repeat split. Qed.

(** C9 as stated fails: the NDVI of the scenario is not 0.6 and its NDRE is
    not 0.68. *)
Lemma scenario_indices_not_exact :
  computed_index Sample.scenario "NDVI" = Some [0.599999999994] /\
  (0.599999999994 =? 0.6) = false /\
  computed_index Sample.scenario "NDRE" = Some [0.68421052630858725] /\
  (0.68421052630858725 =? 0.68) = false.
Proof. repeat split. Qed.

(** ** The endpoint *)

Lemma dict_get_set_eq (d : pydict) (k : string) (v : pyval) :
  dict_get (dict_set d k v) k = Some v.
Proof.
  induction d as [|[k' v'] d IH]; cbn.
  - now rewrite String.eqb_refl.
  - destruct (String.eqb k' k) eqn:E; cbn; rewrite E; trivial.
Qed.

Lemma dict_get_set_ne (d : pydict) (k k' : string) (v : pyval) :
  k <> k' -> dict_get (dict_set d k v) k' = dict_get d k'.
Proof.
  intros Hk. induction d as [|[k0 v0] d IH]; cbn.
  - destruct (String.eqb_spec k k'); [contradiction|reflexivity].
  - destruct (String.eqb_spec k0 k) as [->|N]; cbn.
    + destruct (String.eqb_spec k k'); [contradiction|reflexivity].
    + now rewrite IH.
Qed.

Lemma dict_set_truthy (d : pydict) (k : string) (v : pyval) :
  Py.truthy (PDict (dict_set d k v)) = true.
Proof. destruct d as [|[k' v'] d]; cbn; [|destruct (String.eqb k' k)]; reflexivity. Qed.

Section Endpoint.
Context {geometry image : Type}.
Variable str_to_float : string -> option float.
Variable import_ee : result unit.
Variable ee_point_buffer : float -> float -> float -> result geometry.
Variable GEE_AVAILABLE : bool.
Variable gee_integration : option (@GEEIntegration geometry image).

Lemma aoi_of_unconvertible (lat lon : pyval) (e : exn) :
  Py.float_ str_to_float lat = Raise e \/ Py.float_ str_to_float lon = Raise e ->
  aoi_of str_to_float import_ee ee_point_buffer lat lon = None.
Proof.
  intros H. unfold aoi_of.
  remember (Py.float_ str_to_float lat) as fla eqn:Ea.
  remember (Py.float_ str_to_float lon) as flo eqn:Eo. clear Ea Eo.
  destruct lat, lon; trivial; destruct import_ee as [[]|]; cbn; trivial;
    destruct flo; cbn; trivial; destruct fla; cbn; trivial;
    destruct H; discriminate.
Qed.

Lemma aoi_of_numbers (lat lon : float) :
  aoi_of str_to_float import_ee ee_point_buffer (PNum lat) (PNum lon) =
    match import_ee, ee_point_buffer lon lat 1000 with
    | Ok _, Ok g => Some g
    | _, _ => None
    end.
Proof.
  unfold aoi_of. cbn. destruct import_ee; cbn; trivial.
  destruct (ee_point_buffer lon lat 1000); reflexivity.
Qed.

(** The response depends on the coordinates through the AOI alone. *)
Lemma endpoint_without_coordinates (d : pydict) (noise : float) (now : string) :
  aoi_of str_to_float import_ee ee_point_buffer
    (default PNone (dict_get d "lat")) (default PNone (dict_get d "lon")) = None ->
  predict_gee str_to_float import_ee ee_point_buffer GEE_AVAILABLE gee_integration
    (Ok (PDict d)) noise now
  = predict_gee str_to_float import_ee ee_point_buffer GEE_AVAILABLE gee_integration
      (Ok (PDict (dict_set (dict_set d "lat" PNone) "lon" PNone))) noise now.
Proof.
  intros Haoi. unfold predict_gee.
  destruct GEE_AVAILABLE; trivial. destruct gee_integration as [gee|]; trivial.
  cbn [mbind result_bind rbind]. rewrite dict_set_truthy.
  assert (Hd : (if Py.truthy (PDict d) then PDict d else PDict []) = PDict d)
    by (destruct d; reflexivity).
  rewrite Hd. cbn [Py.get mbind result_bind rbind].
  rewrite (dict_get_set_ne _ "lon" "use_gee"), (dict_get_set_ne _ "lat" "use_gee"),
    (dict_get_set_ne _ "lon" "lat"), !dict_get_set_eq by done.
  rewrite Haoi. reflexivity.
Qed.

(** C6 (amended): coordinates are never rejected.  When a latitude or
    longitude cannot be converted to a number the failure is swallowed, the
    AOI is left unset and the response is the one of the same request
    without coordinates; numeric coordinates go to the geometry constructor
    unchecked, whatever their range. *)
Theorem coordinates_never_rejected (d : pydict) (noise : float) (now : string) :
  (forall (lat lon : pyval) (e : exn),
      Py.float_ str_to_float lat = Raise e \/ Py.float_ str_to_float lon = Raise e ->
      aoi_of str_to_float import_ee ee_point_buffer lat lon = None) /\
  (forall lat lon : float,
      aoi_of str_to_float import_ee ee_point_buffer (PNum lat) (PNum lon) =
        match import_ee, ee_point_buffer lon lat 1000 with
        | Ok _, Ok g => Some g
        | _, _ => None
        end) /\
  (forall e : exn,
      Py.float_ str_to_float (default PNone (dict_get d "lat")) = Raise e \/
      Py.float_ str_to_float (default PNone (dict_get d "lon")) = Raise e ->
      predict_gee str_to_float import_ee ee_point_buffer GEE_AVAILABLE gee_integration
        (Ok (PDict d)) noise now
      = predict_gee str_to_float import_ee ee_point_buffer GEE_AVAILABLE gee_integration
          (Ok (PDict (dict_set (dict_set d "lat" PNone) "lon" PNone))) noise now).
Proof.
  split; [|split].
  - apply aoi_of_unconvertible.
  - apply aoi_of_numbers.
  - intros e H. apply endpoint_without_coordinates.
    exact (aoi_of_unconvertible _ _ e H).
Qed.

(** C7 (amended): the object of a successful inference has the keys success,
    predictions (growth_stage, nitrogen_level, ndvi_mean), recommendations,
    timestamp, data_source and gee_summary, in this order; its data_source
    is "Google Earth Engine" for every summary of the provider, whichever
    path produced the image. *)
Theorem success_response_shape (request : result pyval) (noise : float) (now : string)
  (body : pyval) :
  predict_gee str_to_float import_ee ee_point_buffer GEE_AVAILABLE gee_integration
    request noise now = (body, 200%Z) ->
  exists (gee : GEEIntegration) (aoi : option geometry) (gee_image : image)
         (summary : pyval) (ndvi_mean : float),
    gee_integration = Some gee /\
    get_weekly_sentinel2_data gee aoi = Ok gee_image /\
    get_weekly_summary gee gee_image = Ok summary /\
    (Py.getitem summary "ndvi_mean" ≫= Py.as_number) = Ok ndvi_mean /\
    body =
      PDict
        [ ("success", PBool true);
          ("predictions",
            PDict [ ("growth_stage", PStr (predict_growth_stage ndvi_mean));
                    ("nitrogen_level", PNum (predict_nitrogen_level ndvi_mean noise));
                    ("ndvi_mean", PNum ndvi_mean) ]);
          ("recommendations",
            PDict (generate_recommendations (predict_growth_stage ndvi_mean)
                     (predict_nitrogen_level ndvi_mean noise)));
          ("timestamp", PStr now);
          ("data_source", PStr "Google Earth Engine");
          ("gee_summary", summary) ] /\
    field body "data_source" = Some (PStr "Google Earth Engine") /\
    (image_source gee gee_image = Demo ->
     field body "data_source" <> Some (PStr (announced_data_source Demo))).
Proof.
  unfold predict_gee. intros H.
  destruct GEE_AVAILABLE; [|discriminate]. destruct gee_integration as [gee|]; [|discriminate].
  destruct request as [req|]; [|discriminate]. cbn [mbind result_bind rbind] in H.
  destruct (Py.get _ "use_gee" _) as [use_gee|]; [|discriminate]. cbn in H.
  destruct (negb (Py.truthy use_gee)); [discriminate|].
  destruct (Py.get _ "lat" _) as [lat|]; [|discriminate]. cbn in H.
  destruct (Py.get _ "lon" _) as [lon|]; [|discriminate]. cbn in H.
  destruct (get_weekly_sentinel2_data gee _) as [img|] eqn:Ei; [|discriminate]. cbn in H.
  destruct (get_weekly_summary gee img) as [summary|] eqn:Es; [|discriminate]. cbn in H.
  destruct (Py.getitem summary "ndvi_mean") as [v|] eqn:Ev; [|discriminate]. cbn in H.
  destruct (Py.as_number v) as [x|] eqn:Ex; [|discriminate]. cbn in H.
  injection H as <-.
  exists gee, (aoi_of str_to_float import_ee ee_point_buffer lat lon), img, summary, x.
  repeat split; trivial.
  - rewrite Ev. exact Ex.
  - intros _. discriminate.
Qed.

(** C8 (amended): two runs on the same request, provider answers and noise
    give the same status and the same object apart from the timestamp key,
    which carries the clock reading of each run. *)
Theorem deterministic_apart_from_timestamp (request : result pyval) (noise : float)
  (now1 now2 : string) :
  without_timestamp
    (predict_gee str_to_float import_ee ee_point_buffer GEE_AVAILABLE gee_integration
       request noise now1)
  = without_timestamp
      (predict_gee str_to_float import_ee ee_point_buffer GEE_AVAILABLE gee_integration
         request noise now2).
Proof.
  unfold predict_gee.
  destruct GEE_AVAILABLE; trivial. destruct gee_integration as [gee|]; trivial.
  destruct request as [req|]; trivial. cbn [mbind result_bind rbind].
  destruct (Py.get _ "use_gee" _) as [use_gee|]; trivial. cbn.
  destruct (negb (Py.truthy use_gee)); trivial.
  destruct (Py.get _ "lat" _) as [lat|]; trivial. cbn.
  destruct (Py.get _ "lon" _) as [lon|]; trivial. cbn.
  destruct (get_weekly_sentinel2_data gee _) as [img|]; trivial. cbn.
  destruct (get_weekly_summary gee img) as [summary|]; trivial. cbn.
  destruct (Py.getitem summary "ndvi_mean") as [v|]; trivial. cbn.
  destruct (Py.as_number v) as [x|]; trivial.
Qed.

End Endpoint.

(** *** The endpoint on the sample provider *)

Lemma coordinates_never_rejected_witness :
  Sample.run (PDict [("lat", PStr "north"); ("lon", PNum 76.9558)]) 0 "2024-01-01T00:00:00"
  = Sample.run (PDict [("lat", PNone); ("lon", PNone)]) 0 "2024-01-01T00:00:00".
Proof.
  apply (proj2 (proj2 (coordinates_never_rejected Sample.str_to_float (Ok tt)
                         Sample.ee_point_buffer true (Some Sample.demo_gee)
                         [("lat", PStr "north"); ("lon", PNum 76.9558)]
                         0 "2024-01-01T00:00:00"))
           (ValueError "could not convert string to float: 'north'")).
  left. reflexivity.
Defined.

(** C6 as stated fails: a latitude of 999 degrees and a latitude that is not
    a number are both answered with a successful inference, status 200. *)
Lemma invalid_coordinates_accepted :
  latitude_in_range 999 = false /\
  longitude_in_range 76.9558 = true /\
  aoi_of Sample.str_to_float (Ok tt) Sample.ee_point_buffer (PNum 999) (PNum 76.9558)
    = Some (76.9558, 999, 1000) /\
  is_failure (Sample.run (PDict [("lat", PNum 999); ("lon", PNum 76.9558)])
                0 "2024-01-01T00:00:00") = false /\
  Py.float_ Sample.str_to_float (PStr "north")
    = Raise (ValueError "could not convert string to float: 'north'") /\
  is_failure (Sample.run (PDict [("lat", PStr "north"); ("lon", PNum 76.9558)])
                0 "2024-01-01T00:00:00") = false /\
  field (fst (Sample.run (PDict [("lat", PStr "north"); ("lon", PNum 76.9558)])
                0 "2024-01-01T00:00:00")) "success" = Some (PBool true).
Proof. repeat split. Qed.

Lemma success_response_shape_witness :
  field (fst (Sample.run (PDict []) 0 "2024-01-01T00:00:00")) "data_source"
  = Some (PStr "Google Earth Engine").
Proof.
  destruct (success_response_shape Sample.str_to_float (Ok tt) Sample.ee_point_buffer
              true (Some Sample.demo_gee) (Ok (PDict [])) 0 "2024-01-01T00:00:00"
              (fst (Sample.run (PDict []) 0 "2024-01-01T00:00:00")) eq_refl)
    as (gee & aoi & img & summary & x & _ & _ & _ & _ & _ & H & _).
  exact H.
Defined.

(** C7 as stated fails: a summary that the demo path produced is answered
    with the data source "Google Earth Engine", not "demo". *)
Lemma data_source_on_demo_path :
  get_weekly_sentinel2_data Sample.demo_gee None = Ok None /\
  image_source Sample.demo_gee None = Demo /\
  announced_data_source Demo = "demo" /\
  snd (Sample.run (PDict []) 0 "2024-01-01T00:00:00") = 200%Z /\
  field (fst (Sample.run (PDict []) 0 "2024-01-01T00:00:00")) "data_source"
    = Some (PStr "Google Earth Engine") /\
  dict_keys (match fst (Sample.run (PDict []) 0 "2024-01-01T00:00:00") with
             | PDict d => d
             | _ => []
             end)
    = ["success"; "predictions"; "recommendations"; "timestamp"; "data_source";
       "gee_summary"].
Proof. repeat split. Qed.

(** C8 as stated fails: the same request with the same noise, served at two
    clock readings, gives two different objects. *)
Lemma outputs_differ_by_timestamp :
  Sample.run (PDict []) 0 "2024-01-01T00:00:00"
  <> Sample.run (PDict []) 0 "2024-01-01T00:00:01".
Proof.
  intros H. apply (f_equal (fun r => field (fst r) "timestamp")) in H.
  vm_compute in H. discriminate.
Qed.

(** * Further properties *)

(** ** The sign of a difference *)

Module F64Sign.
Import F64 F64Facts.
Open Scope Z_scope.

Lemma bounded_canonical (m : positive) (e : Z) :
  bounded prec emax m e = true ->
  fexp64 (Z.pos (digits2_pos m) + e) = e /\ e <= 971.
Proof.
  unfold bounded, canonical_mantissa. rewrite fexp64_eq, andb_true_iff.
  intros [Hc Hb]. apply Z.eqb_eq in Hc. apply Z.leb_le in Hb. auto.
Qed.

(** Of two canonical mantissas, the one with the larger exponent is the
    larger number. *)
Lemma canonical_exponent_order (m1 m2 : positive) (e1 e2 : Z) :
  bounded prec emax m1 e1 = true -> bounded prec emax m2 e2 = true ->
  e1 < e2 -> Z.pos m1 < Z.pos m2 * 2 ^ (e2 - e1).
Proof.
  intros H1 H2 He.
  apply bounded_canonical in H1 as [C1 _], H2 as [C2 _].
  pose proof (digits2_pos_bounds m1) as [_ U1].
  pose proof (digits2_pos_bounds m2) as [L2 _].
  unfold fexp64 in C1, C2.
  assert (D2 : Z.pos (digits2_pos m2) = 53) by lia.
  assert (D1 : Z.pos (digits2_pos m1) <= 53) by lia.
  rewrite D2 in L2. change (2 ^ (53 - 1)) with (2 ^ 52) in L2.
  assert (Z.pos m1 < 2 ^ 53).
  { apply Z.lt_le_trans with (2 ^ Z.pos (digits2_pos m1)); trivial.
    apply Z.pow_le_mono_r; lia. }
  assert (2 ^ 1 <= 2 ^ (e2 - e1)) by (apply Z.pow_le_mono_r; lia).
  change (2 ^ 1) with 2 in *. change (2 ^ 53) with (2 * 2 ^ 52) in *. nia.
Qed.

(** Comparing two canonical positive numbers is comparing their mantissas
    once aligned at the smaller exponent. *)
Lemma compare_aligned (m1 m2 : positive) (e1 e2 : Z) :
  bounded prec emax m1 e1 = true -> bounded prec emax m2 e2 = true ->
  match Z.compare e1 e2 with
  | Lt => Lt
  | Gt => Gt
  | Eq => Pos.compare_cont Eq m1 m2
  end
  = Z.compare (Z.pos (fst (shl_align m1 e1 (Z.min e1 e2))))
              (Z.pos (fst (shl_align m2 e2 (Z.min e1 e2)))).
Proof.
  intros H1 H2.
  destruct (shl_align_spec m1 e1 (Z.min e1 e2)) as [_ ->].
  destruct (shl_align_spec m2 e2 (Z.min e1 e2)) as [_ ->].
  destruct (Z.compare_spec e1 e2) as [E|E|E].
  - subst e2. rewrite !Z.min_id, Z.sub_diag, !Z.mul_1_r. reflexivity.
  - replace (Z.min e1 (Z.min e1 e2)) with e1 by lia.
    replace (Z.min e2 (Z.min e1 e2)) with e1 by lia.
    rewrite Z.sub_diag, Z.mul_1_r. symmetry. apply Z.compare_lt_iff.
    now apply canonical_exponent_order.
  - replace (Z.min e1 (Z.min e1 e2)) with e2 by lia.
    replace (Z.min e2 (Z.min e1 e2)) with e2 by lia.
    rewrite Z.sub_diag, Z.mul_1_r. symmetry. apply Z.compare_gt_iff.
    now apply canonical_exponent_order.
Qed.

Lemma binary_round_sign (sx : bool) (M : positive) (ez : Z) :
  -1074 <= ez ->
  SFcompare (binary_round prec emax sx M ez) (S754_zero false)
  = Some (if sx then Lt else Gt).
Proof.
  intros He. destruct (binary_round_shape sx M ez He) as (m'' & e'' & -> & _).
  destruct (e'' <=? 971), sx; reflexivity.
Qed.

(** The sign of the difference of two finite numbers is their order. *)
Lemma SFsub_compare (x y : spec_float) :
  valid_binary x = true -> valid_binary y = true -> SFfinite x -> SFfinite y ->
  SFcompare (SFsub prec emax x y) (S754_zero false) = SFcompare x y.
Proof.
  intros Vx Vy Fx Fy.
  destruct x as [[]|?| |sx mx ex], y as [[]|?| |sy my ey]; try contradiction;
    try reflexivity; try (destruct sx; reflexivity); try (destruct sy; reflexivity).
  cbn [valid_binary] in Vx, Vy.
  pose proof (proj1 (bounded_spec _ _ Vx)) as Ex.
  pose proof (proj1 (bounded_spec _ _ Vy)) as Ey.
  pose proof (compare_aligned mx my ex ey Vx Vy) as Hc.
  cbn [SFsub SFcompare].
  set (a := fst (shl_align mx ex (Z.min ex ey))) in *.
  set (b := fst (shl_align my ey (Z.min ex ey))) in *.
  destruct sx, sy; cbn [cond_Zopp].
  - replace (match ex ?= ey with
             | Eq => CompOpp (Pos.compare_cont Eq mx my) | Lt => Gt | Gt => Lt end)
      with (CompOpp (match ex ?= ey with
                     | Eq => Pos.compare_cont Eq mx my | Lt => Lt | Gt => Gt end))
      by (destruct (ex ?= ey); reflexivity).
    rewrite Hc.
    destruct (Z.compare_spec (Z.pos a) (Z.pos b)) as [E|E|E];
      destruct (- Z.pos a - - Z.pos b) as [|M|M] eqn:EM; try lia;
      cbn [binary_normalize CompOpp]; trivial; apply binary_round_sign; lia.
  - destruct (- Z.pos a - Z.pos b) as [|M|M] eqn:EM; try lia.
    cbn [binary_normalize]. apply binary_round_sign; lia.
  - destruct (Z.pos a - - Z.pos b) as [|M|M] eqn:EM; try lia.
    cbn [binary_normalize]. apply binary_round_sign; lia.
  - rewrite Hc.
    destruct (Z.compare_spec (Z.pos a) (Z.pos b)) as [E|E|E];
      destruct (Z.pos a - Z.pos b) as [|M|M] eqn:EM; try lia;
      cbn [binary_normalize]; trivial; apply binary_round_sign; lia.
Qed.

Lemma SFcompare_zero_l (x : spec_float) :
  SFcompare (S754_zero false) x = option_map CompOpp (SFcompare x (S754_zero false)).
Proof. apply SFcompare_antisym. Qed.

Lemma binary_round_aux_compare (sx : bool) (mx ex : Z) (lx : location) :
  0 <= mx ->
  SFcompare (binary_round_aux prec emax sx mx ex lx) (S754_zero false) = Some Eq \/
  SFcompare (binary_round_aux prec emax sx mx ex lx) (S754_zero false)
    = Some (if sx then Lt else Gt).
Proof.
  intros H. pose proof (binary_round_aux_number prec emax sx mx ex lx H) as Hn.
  unfold binary_round_aux in *.
  destruct (shr_fexp prec emax mx ex lx) as [mrs' e'].
  destruct (shr_fexp prec emax _ e' loc_Exact) as [mrs'' e''].
  destruct (shr_m mrs'') as [|p|p]; [left; reflexivity| |now elim Hn].
  right. destruct (Z.leb e'' (emax - prec)), sx; reflexivity.
Qed.

(** A quotient by a positive number keeps the sign of the numerator. *)
Lemma SFdiv_sign (n d : spec_float) :
  SFfinite n -> SFpositive d ->
  (SFleb (S754_zero false) n = true ->
   SFleb (S754_zero false) (SFdiv prec emax n d) = true) /\
  (SFleb n (S754_zero false) = true ->
   SFleb (SFdiv prec emax n d) (S754_zero false) = true).
Proof.
  intros Hn Hd.
  destruct n as [sn|?| |sn mn en], d as [?|[]| |[] md ed];
    try contradiction; try (split; intros _; reflexivity);
    try (destruct sn; split; intros H; try discriminate; reflexivity).
  cbn [SFdiv].
  pose proof (SFdiv_core_nonneg mn md en ed) as Hq.
  destruct (SFdiv_core_binary prec emax (Z.pos mn) en (Z.pos md) ed) as [[q e] l].
  cbn [fst] in Hq. unfold SFleb.
  rewrite (SFcompare_zero_l (binary_round_aux prec emax (xorb sn false) q e l)).
  destruct (binary_round_aux_compare (xorb sn false) q e l Hq) as [->| ->];
    destruct sn; cbn; split; intros H; try discriminate; reflexivity.
Qed.

Open Scope float_scope.

(** On finite numbers the sign of [a - b] is the order of [a] and [b]. *)
Lemma sub_sign (a b : float) :
  is_finite a = true -> is_finite b = true ->
  (0 <? a - b) = (b <? a) /\ (a - b <? 0) = (a <? b) /\
  (0 <=? a - b) = (b <=? a) /\ (a - b <=? 0) = (a <=? b).
Proof.
  intros Fa Fb. apply is_finite_spec in Fa, Fb.
  rewrite !FloatAxioms.ltb_spec, !FloatAxioms.leb_spec, FloatAxioms.sub_spec.
  unfold SF64sub. change (Prim2SF 0) with (S754_zero false).
  unfold SFltb, SFleb. rewrite SFcompare_zero_l.
  rewrite (SFcompare_antisym (Prim2SF a) (Prim2SF b)).
  rewrite (SFsub_compare _ _ (Prim2SF_valid a) (Prim2SF_valid b) Fa Fb).
  destruct (SFcompare (Prim2SF a) (Prim2SF b)) as [[]|]; cbn; auto.
Qed.

(** Nothing is left to subtract from: when [y] is not below the finite
    [x], the difference [x - y] is not positive. *)
Lemma sub_not_positive (x y : float) :
  is_finite x = true -> (y <? x) = false -> (0 <? x - y) = false.
Proof.
  intros Fx H. destruct (is_finite y) eqn:Fy.
  - now rewrite (proj1 (sub_sign x y Fx Fy)).
  - apply is_finite_spec in Fx.
    assert (Hy : ~ SFfinite (Prim2SF y))
      by (intros Hy; apply is_finite_spec in Hy; congruence).
    revert H. rewrite !FloatAxioms.ltb_spec, FloatAxioms.sub_spec.
    unfold SF64sub. change (Prim2SF 0) with (S754_zero false).
    destruct (Prim2SF x) as [?|?| |sx mx ex], (Prim2SF y) as [?|[]| |? ? ?];
      cbn in *; try contradiction; try tauto; try discriminate; trivial;
      destruct sx; trivial; discriminate.
Qed.

Lemma ltb_leb_trans (x y z : float) :
  (x <? y) = true -> (y <=? z) = true -> (x <? z) = true.
Proof.
  rewrite !FloatAxioms.ltb_spec, FloatAxioms.leb_spec. unfold SFltb, SFleb.
  intros Hxy Hyz.
  destruct (Prim2SF x), (Prim2SF y), (Prim2SF z); sf_cases.
Qed.

Lemma leb_ltb_trans (x y z : float) :
  (x <=? y) = true -> (y <? z) = true -> (x <? z) = true.
Proof.
  rewrite !FloatAxioms.ltb_spec, FloatAxioms.leb_spec. unfold SFltb, SFleb.
  intros Hxy Hyz.
  destruct (Prim2SF x), (Prim2SF y), (Prim2SF z); sf_cases.
Qed.

(** The normalised difference has the sign of [a - b]. *)
Lemma normalized_ratio_sign (a b eps : float) :
  is_finite a = true -> (0 <=? a) = true ->
  is_finite b = true -> (0 <=? b) = true ->
  SFpositive (Prim2SF eps) ->
  ((b <=? a) = true -> (0 <=? (a - b) / (a + b + eps)) = true) /\
  ((a <=? b) = true -> ((a - b) / (a + b + eps) <=? 0) = true).
Proof.
  intros Fa Na Fb Nb He.
  destruct (sub_sign a b Fa Fb) as (_ & _ & Hge & Hle).
  rewrite <- Hge, <- Hle.
  apply is_finite_spec in Fa, Fb. apply nonneg_spec in Na, Nb.
  rewrite !FloatAxioms.leb_spec, FloatAxioms.div_spec.
  change (Prim2SF 0) with (S754_zero false).
  apply SFdiv_sign.
  - rewrite FloatAxioms.sub_spec. apply SFsub_finite; auto using Prim2SF_valid.
  - rewrite FloatAxioms.add_spec. apply SFadd_positive; auto using Prim2SF_valid.
    rewrite FloatAxioms.add_spec. apply SFadd_nonneg; auto using Prim2SF_valid.
Qed.

(** A finite number minus itself is zero, and zero over a positive
    number is zero. *)
Lemma normalized_ratio_diag (a eps : float) :
  is_finite a = true -> (0 <=? a) = true -> SFpositive (Prim2SF eps) ->
  (a - a) / (a + a + eps) = 0.
Proof.
  intros Fa Na He. apply is_finite_spec in Fa. apply nonneg_spec in Na.
  apply Prim2SF_inj. rewrite FloatAxioms.div_spec, FloatAxioms.sub_spec.
  change (Prim2SF 0) with (S754_zero false).
  assert (Hd : SFpositive (Prim2SF (a + a + eps))).
  { rewrite FloatAxioms.add_spec. apply SFadd_positive; auto using Prim2SF_valid.
    rewrite FloatAxioms.add_spec. apply SFadd_nonneg; auto using Prim2SF_valid. }
  assert (Hn : SF64sub (Prim2SF a) (Prim2SF a) = S754_zero false).
  { unfold SF64sub. destruct (Prim2SF a) as [[]|?| |[] m e]; try contradiction;
      try reflexivity.
    cbn [SFsub cond_Zopp]. now rewrite Z.sub_diag. }
  rewrite Hn. destruct (Prim2SF (a + a + eps)) as [?|[]| |[] ? ?];
    try contradiction; reflexivity.
Qed.

End F64Sign.

(** ** More on the vegetation indices *)

Lemma clip_lookup (a : list float) (lo hi : float) (i : nat) :
  Np.clip a lo hi !! i = (fun x => Np.clip1 x lo hi) <$> a !! i.
Proof.
  unfold Np.clip. revert i. induction a as [|x a IH]; intros [|i]; cbn; auto.
Qed.

Lemma zip_with3_lookup {A B C D : Type} (f : A -> B -> C -> D)
  (a : list A) (b : list B) (c : list C) (i : nat) :
  zip_with3 f a b c !! i
  = (x ← a !! i; y ← b !! i; z ← c !! i; Some (f x y z)).
Proof.
  revert b c i. induction a as [|x a IH]; intros [|y b] [|z c] [|i]; cbn; auto;
    repeat (match goal with |- context [?l !! i] => destruct (l !! i) end; cbn; auto).
Qed.

Lemma zip_with3_length {A B C D : Type} (f : A -> B -> C -> D)
  (a : list A) (b : list B) (c : list C) :
  length a = length b -> length a = length c -> length (zip_with3 f a b c) = length a.
Proof.
  revert b c. induction a as [|x a IH]; intros [|y b] [|z c] Hb Hc;
    try discriminate; trivial.
  cbn. f_equal. apply IH; [now injection Hb|now injection Hc].
Qed.

Lemma clip_length (a : Np.ndarray) (lo hi : float) : length (Np.clip a lo hi) = length a.
Proof. unfold Np.clip. apply length_map. Qed.

Lemma index_set_keys_aux (bands : BandSet) (r : IndexSet) (k : string) :
  compute_vegetation_indices bands = Ok r -> is_Some (r !! k) ->
  k = "NDVI" \/ k = "NDRE" \/ k = "EVI".
Proof.
  index_cases bands; intros [= <-] [v Hk]; rewrite ?insert_insert_eq in Hk;
    repeat match type of Hk with
      | <[?i:=_]> _ !! k = Some _ =>
          destruct (decide (i = k)) as [<-|]; [auto|
          rewrite lookup_insert_ne in Hk by assumption]
      end;
    try (rewrite lookup_empty in Hk; discriminate).
Qed.

(** X1: an index set that is returned holds no key besides NDVI, NDRE and
    EVI. *)
Theorem index_set_keys (bands : BandSet) (r : IndexSet) :
  compute_vegetation_indices bands = Ok r ->
  dom r ⊆ ({[ "NDVI"; "NDRE"; "EVI" ]} : gset string).
Proof.
  intros Hr k Hk. apply elem_of_dom in Hk.
  destruct (index_set_keys_aux bands r k Hr Hk) as [->|[->| ->]]; set_solver.
Qed.

Lemma index_set_keys_witness :
  exists r : IndexSet,
    compute_vegetation_indices Sample.scenario = Ok r /\
    dom r ⊆ ({[ "NDVI"; "NDRE"; "EVI" ]} : gset string).
Proof.
  destruct (compute_same_shape Sample.scenario same_shape_scenario) as [r [Hr _]].
  exists r. split; [exact Hr|]. exact (index_set_keys Sample.scenario r Hr).
Defined.

(** X2: the indices read the bands B08, B04, B05 and B02 and nothing else:
    two band sets that agree on these four give the same result, be it an
    index set or an error. *)
Theorem other_bands_ignored (b1 b2 : BandSet) :
  same_index_bands b1 b2 ->
  compute_vegetation_indices b1 = compute_vegetation_indices b2.
Proof.
  intros (H8 & H4 & H5 & H2). unfold compute_vegetation_indices.
  now rewrite H8, H4, H5, H2.
Qed.

(** X3: for rasters of [n] pixels each, an index set is returned and each of
    its rasters has [n] pixels. *)
Theorem index_shape_preserved (bands : BandSet) (n : nat) :
  (forall (k : string) (a : Np.ndarray), bands !! k = Some a -> length a = n) ->
  exists r : IndexSet,
    compute_vegetation_indices bands = Ok r /\
    forall (k : string) (v : Np.ndarray), r !! k = Some v -> length v = n.
Proof.
  intros Hn. destruct (compute_same_shape bands) as (r & Hr & H1 & H2 & H3 & Ho);
    [now exists n|].
  exists r. split; [exact Hr|]. intros k v Hk.
  destruct (index_set_keys_aux bands r k Hr (ex_intro _ v Hk)) as [->|[->| ->]].
  - rewrite H1 in Hk. unfold ndvi_of in Hk.
    destruct (bands !! "B08") as [a|] eqn:Ea; [|discriminate].
    destruct (bands !! "B04") as [b|] eqn:Eb; [|discriminate].
    injection Hk as <-. apply Hn in Ea, Eb.
    rewrite clip_length, length_zip_with. lia.
  - rewrite H2 in Hk. unfold ndre_of in Hk.
    destruct (bands !! "B08") as [a|] eqn:Ea; [|discriminate].
    destruct (bands !! "B05") as [b|] eqn:Eb; [|discriminate].
    injection Hk as <-. apply Hn in Ea, Eb.
    rewrite clip_length, length_zip_with. lia.
  - rewrite H3 in Hk. unfold evi_of in Hk.
    destruct (bands !! "B08") as [a|] eqn:Ea; [|discriminate].
    destruct (bands !! "B04") as [b|] eqn:Eb; [|discriminate].
    destruct (bands !! "B02") as [c|] eqn:Ec; [|discriminate].
    injection Hk as <-. apply Hn in Ea, Eb, Ec.
    rewrite clip_length, zip_with3_length; congruence.
Qed.

Lemma other_bands_ignored_witness :
  compute_vegetation_indices Bands.with_swir
  = compute_vegetation_indices Sample.scenario.
Proof.
  apply other_bands_ignored. repeat split.
Defined.

Lemma index_shape_preserved_witness :
  exists r : IndexSet,
    compute_vegetation_indices Sample.zeros = Ok r /\
    forall (k : string) (v : Np.ndarray), r !! k = Some v -> length v = 2%nat.
Proof.
  apply index_shape_preserved. intros k a H.
  now rewrite (zeros_are_zero k a H).
Defined.

(** X4: for rasters of one shape each index is computed pixel by pixel: the
    value at a position is the clipped formula of the band values at that
    position, and of no other pixel. *)
Theorem indices_pixelwise (bands : BandSet) :
  same_shape bands ->
  exists r : IndexSet,
    compute_vegetation_indices bands = Ok r /\
    forall (i : nat) (nir : Np.ndarray) (x : float),
      bands !! "B08" = Some nir -> nir !! i = Some x ->
      (forall (red : Np.ndarray) (y : float),
          bands !! "B04" = Some red -> red !! i = Some y ->
          exists v : Np.ndarray,
            r !! "NDVI" = Some v /\ v !! i = Some (Np.clip1 (nd_pixel x y) (-1) 1)) /\
      (forall (red_edge : Np.ndarray) (y : float),
          bands !! "B05" = Some red_edge -> red_edge !! i = Some y ->
          exists v : Np.ndarray,
            r !! "NDRE" = Some v /\ v !! i = Some (Np.clip1 (nd_pixel x y) (-1) 1)) /\
      (forall (red blue : Np.ndarray) (y z : float),
          bands !! "B04" = Some red -> red !! i = Some y ->
          bands !! "B02" = Some blue -> blue !! i = Some z ->
          exists v : Np.ndarray,
            r !! "EVI" = Some v /\ v !! i = Some (Np.clip1 (evi_pixel x y z) (-1) 1)).
Proof.
  intros Hs. destruct (compute_same_shape bands Hs) as (r & Hr & H1 & H2 & H3 & _).
  exists r. split; [exact Hr|]. intros i nir x Hn Hx. unfold Np.ndarray in *.
  split; [|split].
  - intros red y Hb Hy. eexists. split.
    + rewrite H1. unfold ndvi_of, Np.ndarray. rewrite Hn, Hb. reflexivity.
    + now rewrite clip_lookup, lookup_zip_with, Hx, Hy.
  - intros red y Hb Hy. eexists. split.
    + rewrite H2. unfold ndre_of, Np.ndarray. rewrite Hn, Hb. reflexivity.
    + now rewrite clip_lookup, lookup_zip_with, Hx, Hy.
  - intros red blue y z Hb Hy Hc Hz. eexists. split.
    + rewrite H3. unfold evi_of, Np.ndarray. rewrite Hn, Hb, Hc. reflexivity.
    + now rewrite clip_lookup, zip_with3_lookup, Hx, Hy, Hz.
Qed.

Lemma indices_pixelwise_witness :
  exists (r : IndexSet) (v : Np.ndarray),
    compute_vegetation_indices Sample.scenario = Ok r /\
    r !! "NDVI" = Some v /\ v !! 0%nat = Some (Np.clip1 (nd_pixel 800 200) (-1) 1).
Proof.
  destruct (indices_pixelwise Sample.scenario same_shape_scenario) as (r & Hr & Hp).
  destruct (proj1 (Hp 0%nat [800] 800 eq_refl eq_refl) [200] 200 eq_refl eq_refl)
    as (v & Hv & Hi).
  now exists r, v.
Defined.

(** X5: two rasters of different lengths, neither of one pixel, cannot be
    combined: when B08 and B04 are such a pair the call raises ValueError
    and returns no index at all. *)
Theorem shape_mismatch_raises (bands : BandSet) (nir red : Np.ndarray) :
  bands !! "B08" = Some nir -> bands !! "B04" = Some red ->
  length nir <> length red -> length nir <> 1%nat -> length red <> 1%nat ->
  exists msg : string, compute_vegetation_indices bands = Raise (ValueError msg).
Proof.
  intros Hn Hr Hl H1 H2. eexists. unfold compute_vegetation_indices.
  rewrite Hn, Hr. unfold Np.astype_float, normalized_difference, Np.sub, Np.broadcast.
  apply Nat.eqb_neq in Hl. rewrite Hl.
  destruct nir as [|x [|x' nir]], red as [|y [|y' red]]; cbn in *;
    try congruence; try discriminate; reflexivity.
Qed.

Lemma shape_mismatch_raises_witness :
  exists msg : string, compute_vegetation_indices Bands.ragged = Raise (ValueError msg).
Proof.
  apply (shape_mismatch_raises Bands.ragged [1; 2; 3] [1; 2]); (reflexivity || discriminate).
Defined.

Lemma normalized_difference_scalar (nir : Np.ndarray) (r : float) :
  normalized_difference nir [r] = Ok (map (fun x => nd_pixel x r) nir).
Proof.
  unfold normalized_difference, Np.sub, Np.add, Np.divide, Np.add_scalar.
  destruct nir as [|x [|x' nir]]; try reflexivity.
  cbn. rewrite broadcast_same_length by (cbn; now rewrite !length_map).
  cbn. unfold nd_pixel. do 3 f_equal.
  induction nir as [|z nir IH]; cbn; [|rewrite IH]; reflexivity.
Qed.

(** X6: a one-pixel red band is stretched over the near-infrared raster:
    with only B08 and a one-pixel B04 present, the index set holds NDVI
    alone, computed for every near-infrared pixel against that red value. *)
Theorem single_red_value_broadcast (bands : BandSet) (nir : Np.ndarray) (red : float) :
  bands !! "B08" = Some nir -> bands !! "B04" = Some [red] ->
  bands !! "B05" = None -> bands !! "B02" = None ->
  compute_vegetation_indices bands
  = Ok {[ "NDVI" := map (fun x => Np.clip1 (nd_pixel x red) (-1) 1) nir ]}.
Proof.
  intros Hn Hr H5 H2. unfold compute_vegetation_indices, Np.ndarray in *.
  rewrite Hn, Hr, H5, H2. unfold Np.astype_float.
  rewrite normalized_difference_scalar. cbn [mbind result_bind rbind].
  rewrite insert_insert_eq. f_equal. unfold Np.clip. rewrite map_map.
  reflexivity.
Qed.

Lemma single_red_value_broadcast_witness :
  compute_vegetation_indices Bands.flat_red
  = Ok {[ "NDVI" := map (fun x => Np.clip1 (nd_pixel x 200) (-1) 1) [800; 600; 400] ]}.
Proof.
  apply single_red_value_broadcast; reflexivity.
Defined.

Lemma clip1_nonneg (x : float) :
  (0 <=? x) = true -> F64.within 0 1 (Np.clip1 x (-1) 1) = true.
Proof.
  intros H. pose proof (F64Facts.leb_number_r _ _ H) as Hx.
  unfold Np.clip1, Np.max_. rewrite Hx.
  rewrite (F64Sign.ltb_leb_trans (-1) 0 x eq_refl H).
  unfold Np.min_, F64.within. rewrite Hx.
  destruct (x <? 1) eqn:E.
  - now rewrite H, (F64Facts.ltb_leb _ _ E).
  - reflexivity.
Qed.

Lemma clip1_nonpos (x : float) :
  (x <=? 0) = true -> F64.within (-1) 0 (Np.clip1 x (-1) 1) = true.
Proof.
  intros H. pose proof (F64Facts.leb_number_l _ _ H) as Hx.
  unfold Np.clip1, Np.max_. rewrite Hx.
  destruct (-1 <? x) eqn:E.
  - unfold Np.min_, F64.within. rewrite Hx.
    rewrite (F64Sign.leb_ltb_trans x 0 1 H eq_refl).
    now rewrite H, (F64Facts.ltb_leb _ _ E).
  - reflexivity.
Qed.

Lemma forallb_lookup {A : Type} (P : A -> bool) (l : list A) (i : nat) (x : A) :
  forallb P l = true -> l !! i = Some x -> P x = true.
Proof.
  revert i. induction l as [|y l IH]; intros [|i] H Hx; try discriminate;
    cbn in H; apply andb_true_iff in H as [Hy Hl].
  - now injection Hx as <-.
  - exact (IH i Hl Hx).
Qed.

Lemma nd_pixel_sign (x y : float) :
  finite_nonneg x = true -> finite_nonneg y = true ->
  ((y <=? x) = true -> F64.within 0 1 (Np.clip1 (nd_pixel x y) (-1) 1) = true) /\
  ((x <=? y) = true -> F64.within (-1) 0 (Np.clip1 (nd_pixel x y) (-1) 1) = true) /\
  (x = y -> Np.clip1 (nd_pixel x y) (-1) 1 = 0).
Proof.
  intros Hx Hy. apply andb_true_iff in Hx as [Fx Nx], Hy as [Fy Ny].
  destruct (F64Sign.normalized_ratio_sign x y 1e-8 Fx Nx Fy Ny I) as [Hge Hle].
  split; [|split].
  - intros H. apply clip1_nonneg. now apply Hge.
  - intros H. apply clip1_nonpos. now apply Hle.
  - intros <-. unfold nd_pixel.
    now rewrite (F64Sign.normalized_ratio_diag x 1e-8 Fx Nx I).
Qed.

(** X7: for finite band values that are not negative, NDVI and NDRE follow
    the order of the two bands pixel by pixel: where near-infrared is at
    least the other band the value lies in [[0, 1]], where it is at most
    the other band in [[-1, 0]], and where the two are equal it is 0. *)
Theorem normalized_index_sign (bands : BandSet) :
  same_shape bands -> all_pixels finite_nonneg bands ->
  exists r : IndexSet,
    compute_vegetation_indices bands = Ok r /\
    forall (name other : string) (i : nat) (nir b : Np.ndarray) (x y : float),
      (name = "NDVI" /\ other = "B04") \/ (name = "NDRE" /\ other = "B05") ->
      bands !! "B08" = Some nir -> bands !! other = Some b ->
      nir !! i = Some x -> b !! i = Some y ->
      exists (v : Np.ndarray) (z : float),
        r !! name = Some v /\ v !! i = Some z /\
        ((y <=? x) = true -> F64.within 0 1 z = true) /\
        ((x <=? y) = true -> F64.within (-1) 0 z = true) /\
        (x = y -> z = 0).
Proof.
  intros Hs Hp. destruct (compute_same_shape bands Hs) as (r & Hr & H1 & H2 & _).
  exists r. split; [exact Hr|].
  intros name other i nir b x y Hname Hn Hb Hx Hy.
  pose proof (forallb_lookup _ _ _ _ (Hp _ _ Hn) Hx) as Px.
  pose proof (forallb_lookup _ _ _ _ (Hp _ _ Hb) Hy) as Py.
  exists (Np.clip (zip_with nd_pixel nir b) (-1) 1), (Np.clip1 (nd_pixel x y) (-1) 1).
  unfold Np.ndarray in *. split; [|split].
  - destruct Hname as [[-> ->]|[-> ->]].
    + rewrite H1. unfold ndvi_of, Np.ndarray. now rewrite Hn, Hb.
    + rewrite H2. unfold ndre_of, Np.ndarray. now rewrite Hn, Hb.
  - now rewrite clip_lookup, lookup_zip_with, Hx, Hy.
  - now apply nd_pixel_sign.
Qed.

Lemma all_pixels_two_pixels : all_pixels finite_nonneg Bands.two_pixels.
Proof.
  intros k a H. unfold Bands.two_pixels in H.
  apply lookup_insert_Some in H as [[_ <-]|[_ H]]; [reflexivity|].
  apply lookup_singleton_Some in H as [_ <-]. reflexivity.
Qed.

Lemma same_shape_two_pixels : same_shape Bands.two_pixels.
Proof.
  exists 2%nat. intros k a H. unfold Bands.two_pixels in H.
  apply lookup_insert_Some in H as [[_ <-]|[_ H]]; [reflexivity|].
  apply lookup_singleton_Some in H as [_ <-]. reflexivity.
Qed.

Lemma normalized_index_sign_witness :
  exists (r : IndexSet) (v : Np.ndarray) (z : float),
    compute_vegetation_indices Bands.two_pixels = Ok r /\
    r !! "NDVI" = Some v /\ v !! 1%nat = Some z /\ F64.within (-1) 0 z = true.
Proof.
  destruct (normalized_index_sign Bands.two_pixels same_shape_two_pixels
              all_pixels_two_pixels) as (r & Hr & Hp).
  destruct (Hp "NDVI" "B04" 1%nat [800; 300] [200; 900] 300 900
              (or_introl (conj eq_refl eq_refl)) eq_refl eq_refl eq_refl eq_refl)
    as (v & z & Hv & Hz & _ & Hle & _).
  exists r, v, z. repeat split; trivial. now apply Hle.
Defined.

(** ** More on the recommendations *)

(** X8: the body of a recommendation has the keys irrigation, fertilizer and
    management for the four growth stages and is empty for any other stage
    name, which therefore gets no fertilizer sentence; the status and the
    echoed fields are there in either case. *)
Theorem recommendation_body_keys (growth_stage : string) (nitrogen_level : float) :
  keys_under (generate_recommendations growth_stage nitrogen_level) "recommendations"
    = (if known_stage growth_stage then ["irrigation"; "fertilizer"; "management"]
       else []) /\
  (known_stage growth_stage = false ->
   fertilizer_text (generate_recommendations growth_stage nitrogen_level) = None) /\
  dict_keys (generate_recommendations growth_stage nitrogen_level)
    = ["growth_stage"; "nitrogen_level"; "nitrogen_status"; "recommendations"].
Proof.
  unfold known_stage, generate_recommendations.
  destruct (String.eqb growth_stage "vegetative");
    [|destruct (String.eqb growth_stage "tuber_initiation");
      [|destruct (String.eqb growth_stage "tuber_bulking");
        [|destruct (String.eqb growth_stage "maturation")]]];
    repeat split; intros; try discriminate; reflexivity.
Qed.

Lemma recommendation_body_keys_witness :
  fertilizer_text (generate_recommendations "flowering" 100) = None.
Proof.
  apply (proj1 (proj2 (recommendation_body_keys "flowering" 100))). reflexivity.
Defined.

Lemma whole_kg_zero (target nitrogen_level : float) :
  is_finite target = true -> (nitrogen_level <? target) = false ->
  whole_kg (target - nitrogen_level) = "0".
Proof.
  intros Ft H. unfold whole_kg, Py.max0.
  now rewrite (F64Sign.sub_not_positive target nitrogen_level Ft H).
Qed.

(** X9: a nitrogen level that is not below the target of the stage gets the
    dose 0: from 120 on for vegetative, 140 for tuber_initiation, 160 for
    tuber_bulking, also when the level is infinite or a NaN; so a
    vegetative field whose status is high is never asked for nitrogen. *)
Theorem no_dose_at_target (nitrogen_level : float) :
  ((nitrogen_level <? 120) = false ->
   fertilizer_text (generate_recommendations "vegetative" nitrogen_level)
     = Some "Apply 0 kg/ha N as basal dose") /\
  ((nitrogen_level <? 140) = false ->
   fertilizer_text (generate_recommendations "tuber_initiation" nitrogen_level)
     = Some "Apply 0 kg/ha N as top dressing") /\
  ((nitrogen_level <? 160) = false ->
   fertilizer_text (generate_recommendations "tuber_bulking" nitrogen_level)
     = Some "Apply 0 kg/ha N + 60 kg/ha K") /\
  (nitrogen_status (generate_recommendations "vegetative" nitrogen_level) = Some "high" ->
   fertilizer_text (generate_recommendations "vegetative" nitrogen_level)
     = Some "Apply 0 kg/ha N as basal dose").
Proof.
  assert (H120 : (nitrogen_level <? 120) = false ->
                 fertilizer_text (generate_recommendations "vegetative" nitrogen_level)
                 = Some "Apply 0 kg/ha N as basal dose").
  { intros H.
    change (fertilizer_text (generate_recommendations "vegetative" nitrogen_level))
      with (Some ("Apply " ++ whole_kg (120 - nitrogen_level) ++ " kg/ha N as basal dose")).
    now rewrite (whole_kg_zero 120 nitrogen_level eq_refl H). }
  split; [exact H120|]. split; [|split].
  - intros H.
    change (fertilizer_text (generate_recommendations "tuber_initiation" nitrogen_level))
      with (Some ("Apply " ++ whole_kg (140 - nitrogen_level) ++ " kg/ha N as top dressing")).
    now rewrite (whole_kg_zero 140 nitrogen_level eq_refl H).
  - intros H.
    change (fertilizer_text (generate_recommendations "tuber_bulking" nitrogen_level))
      with (Some ("Apply " ++ whole_kg (160 - nitrogen_level) ++ " kg/ha N + 60 kg/ha K")).
    now rewrite (whole_kg_zero 160 nitrogen_level eq_refl H).
  - intros H. apply H120. revert H.
    unfold generate_recommendations, nitrogen_status.
    cbn [dict_set dict_get String.eqb Ascii.eqb Bool.eqb].
    rewrite threshold_low, threshold_medium. cbn.
    destruct (nitrogen_level <? 80); [discriminate|].
    destruct (nitrogen_level <? 120); [discriminate|reflexivity].
Qed.

Lemma no_dose_at_target_witness :
  fertilizer_text (generate_recommendations "vegetative" 133.7)
    = Some "Apply 0 kg/ha N as basal dose" /\
  fertilizer_text (generate_recommendations "tuber_bulking" nan)
    = Some "Apply 0 kg/ha N + 60 kg/ha K".
Proof.
  split.
  - apply (proj1 (no_dose_at_target 133.7)). reflexivity.
  - apply (proj1 (proj2 (proj2 (no_dose_at_target nan)))). reflexivity.
Defined.

Lemma round_half_even_nonneg (m : positive) (e : Z) : (0 <= Py.round_half_even m e)%Z.
Proof.
  destruct e as [|p|p]; cbn [Py.round_half_even]; try lia.
  assert (Hd : (0 < Z.pow_pos 2 p)%Z)
    by (rewrite Z.pow_pos_fold; apply Z.pow_pos_nonneg; lia).
  pose proof (Z.div_pos (Z.pos m) _ ltac:(lia) Hd) as Hq.
  destruct (Z.compare _ _); [destruct (Z.even _)| |]; lia.
Qed.

Lemma whole_kg_shape (deficit : float) :
  whole_kg deficit = "inf" \/ exists n : Z, (0 <= n)%Z /\ whole_kg deficit = Py.str_of_Z n.
Proof.
  unfold whole_kg, Py.max0. destruct (0 <? deficit) eqn:E.
  - unfold Py.format_0f. rewrite FloatAxioms.ltb_spec in E.
    change (Prim2SF 0) with (S754_zero false) in E.
    destruct (Prim2SF deficit) as [?|[]| |[] m e]; try discriminate; auto.
    right. exists (Py.round_half_even m e). split; [apply round_half_even_nonneg|reflexivity].
  - right. exists 0%Z. split; [lia|reflexivity].
Qed.

(** X10: the dose of a fertilizer sentence is the decimal text of a natural
    number, or [inf] for an infinite deficit; it is never negative and never
    a NaN, whatever the nitrogen level. *)
Theorem dose_is_natural (nitrogen_level : float) :
  forall (stage suffix : string) (target : float),
    (stage = "vegetative" /\ target = 120 /\ suffix = " kg/ha N as basal dose") \/
    (stage = "tuber_initiation" /\ target = 140 /\ suffix = " kg/ha N as top dressing") \/
    (stage = "tuber_bulking" /\ target = 160 /\ suffix = " kg/ha N + 60 kg/ha K") ->
    exists dose : string,
      fertilizer_text (generate_recommendations stage nitrogen_level)
        = Some ("Apply " ++ dose ++ suffix) /\
      (dose = "inf" \/ exists n : Z, (0 <= n)%Z /\ dose = Py.str_of_Z n).
Proof.
  intros stage suffix target H.
  exists (whole_kg (target - nitrogen_level)). split; [|apply whole_kg_shape].
  destruct H as [(-> & -> & ->)|[(-> & -> & ->)|(-> & -> & ->)]]; reflexivity.
Qed.

Lemma dose_is_natural_witness :
  exists dose : string,
    fertilizer_text (generate_recommendations "vegetative" (-50))
      = Some ("Apply " ++ dose ++ " kg/ha N as basal dose") /\
    (dose = "inf" \/ exists n : Z, (0 <= n)%Z /\ dose = Py.str_of_Z n).
Proof.
  apply (dose_is_natural (-50) "vegetative" " kg/ha N as basal dose" 120).
  left. repeat split.
Defined.

(** ** More on the inference endpoint *)


Lemma truthy_data (d : pydict) :
  (if Py.truthy (PDict d) then PDict d else PDict []) = PDict d.
Proof. destruct d; reflexivity. Qed.

Section EndpointCases.
Context {geometry image : Type}.
Variable str_to_float : string -> option float.
Variable import_ee : result unit.
Variable ee_point_buffer : float -> float -> float -> result geometry.

(** The endpoint on a provider, for a request body that is a dictionary. *)
Lemma predict_gee_connected (gee : @GEEIntegration geometry image) (d : pydict)
  (noise : float) (now : string) :
  predict_gee str_to_float import_ee ee_point_buffer true (Some gee) (Ok (PDict d)) noise now
  = if negb (Py.truthy (default (PBool true) (dict_get d "use_gee"))) then
      error_response "GEE prediction requested but use_gee is False" 400
    else
      try_except
        (gee_image ← get_weekly_sentinel2_data gee
                       (aoi_of str_to_float import_ee ee_point_buffer
                          (default PNone (dict_get d "lat"))
                          (default PNone (dict_get d "lon")));
         summary ← get_weekly_summary gee gee_image;
         v ← Py.getitem summary "ndvi_mean";
         ndvi_mean ← Py.as_number v;
         Ok (PDict
               [ ("success", PBool true);
                 ("predictions",
                   PDict [ ("growth_stage", PStr (predict_growth_stage ndvi_mean));
                           ("nitrogen_level", PNum (predict_nitrogen_level ndvi_mean noise));
                           ("ndvi_mean", PNum ndvi_mean) ]);
                 ("recommendations",
                   PDict (generate_recommendations (predict_growth_stage ndvi_mean)
                            (predict_nitrogen_level ndvi_mean noise)));
                 ("timestamp", PStr now);
                 ("data_source", PStr "Google Earth Engine");
                 ("gee_summary", summary) ],
             200%Z))
        (fun e => error_response (str_exn e) 500).
Proof.
  unfold predict_gee. cbn [mbind result_bind rbind]. rewrite truthy_data.
  cbn [Py.get mbind result_bind rbind].
  destruct (negb _); reflexivity.
Qed.

(** The four ways the endpoint answers. *)
Lemma endpoint_outcome (GEE_AVAILABLE : bool) (gee_integration : option (@GEEIntegration geometry image))
  (request : result pyval) (noise : float) (now : string) :
  let r := predict_gee str_to_float import_ee ee_point_buffer GEE_AVAILABLE
             gee_integration request noise now in
  r = error_response "GEE integration not available" 400 \/
  r = error_response "GEE prediction requested but use_gee is False" 400 \/
  (exists e : exn, r = error_response (str_exn e) 500) \/
  (exists (summary : pyval) (ndvi_mean : float),
      (Py.getitem summary "ndvi_mean" ≫= Py.as_number) = Ok ndvi_mean /\
      r = (PDict
             [ ("success", PBool true);
               ("predictions",
                 PDict [ ("growth_stage", PStr (predict_growth_stage ndvi_mean));
                         ("nitrogen_level", PNum (predict_nitrogen_level ndvi_mean noise));
                         ("ndvi_mean", PNum ndvi_mean) ]);
               ("recommendations",
                 PDict (generate_recommendations (predict_growth_stage ndvi_mean)
                          (predict_nitrogen_level ndvi_mean noise)));
               ("timestamp", PStr now);
               ("data_source", PStr "Google Earth Engine");
               ("gee_summary", summary) ],
           200%Z)).
Proof.
  cbv zeta. unfold predict_gee.
  destruct GEE_AVAILABLE; [|now left]. destruct gee_integration as [gee|]; [|now left].
  right.
  destruct request as [req|e]; [|right; left; now exists e]. cbn [mbind result_bind rbind].
  destruct (Py.get _ "use_gee" _) as [use_gee|e]; [|right; left; now exists e]. cbn.
  destruct (negb (Py.truthy use_gee)); [now left|]. right.
  destruct (Py.get _ "lat" _) as [lat|e]; [|left; now exists e]. cbn.
  destruct (Py.get _ "lon" _) as [lon|e]; [|left; now exists e]. cbn.
  destruct (get_weekly_sentinel2_data gee _) as [img|e]; [|left; now exists e]. cbn.
  destruct (get_weekly_summary gee img) as [summary|e]; [|left; now exists e]. cbn.
  destruct (Py.getitem summary "ndvi_mean") as [v|e] eqn:Ev; [|left; now exists e]. cbn.
  destruct (Py.as_number v) as [x|e] eqn:Ex; [|left; now exists e]. cbn.
  right. exists summary, x. split; [|reflexivity]. now rewrite Ev.
Qed.

(** X11: every answer of the endpoint is either status 200 with an object
    whose success is true and that has no error key, or status 400 or 500
    with an object that holds an error text and nothing else; no exception
    leaves the handler. *)
Theorem endpoint_status_and_body (GEE_AVAILABLE : bool)
  (gee_integration : option (@GEEIntegration geometry image)) (request : result pyval)
  (noise : float) (now : string) :
  let r := predict_gee str_to_float import_ee ee_point_buffer GEE_AVAILABLE
             gee_integration request noise now in
  (snd r = 200%Z /\ field (fst r) "success" = Some (PBool true) /\
   field (fst r) "error" = None) \/
  ((snd r = 400%Z \/ snd r = 500%Z) /\ is_error_body (fst r)).
Proof.
  intros r.
  destruct (endpoint_outcome GEE_AVAILABLE gee_integration request noise now)
    as [H|[H|[[e H]|(summary & x & _ & H)]]]; fold r in H; rewrite H.
  - right. split; [now left|]. now eexists.
  - right. split; [now left|]. now eexists.
  - right. split; [now right|]. now eexists.
  - left. repeat split.
Qed.

(** X12: on a working endpoint a failure of the provider is answered with
    status 500 and the text of the exception: when the image request
    raises, when the summary raises, and, with the text ['ndvi_mean'], when
    the summary is a dictionary without that key. *)
Theorem provider_failure_is_500 (gee : @GEEIntegration geometry image) (d : pydict)
  (noise : float) (now : string) :
  Py.truthy (default (PBool true) (dict_get d "use_gee")) = true ->
  let aoi := aoi_of str_to_float import_ee ee_point_buffer
               (default PNone (dict_get d "lat")) (default PNone (dict_get d "lon")) in
  let r := predict_gee str_to_float import_ee ee_point_buffer true (Some gee)
             (Ok (PDict d)) noise now in
  (forall e : exn, get_weekly_sentinel2_data gee aoi = Raise e ->
                   r = error_response (str_exn e) 500) /\
  (forall (gee_image : image) (e : exn),
      get_weekly_sentinel2_data gee aoi = Ok gee_image ->
      get_weekly_summary gee gee_image = Raise e ->
      r = error_response (str_exn e) 500) /\
  (forall (gee_image : image) (summary : pydict),
      get_weekly_sentinel2_data gee aoi = Ok gee_image ->
      get_weekly_summary gee gee_image = Ok (PDict summary) ->
      dict_get summary "ndvi_mean" = None ->
      r = error_response "'ndvi_mean'" 500).
Proof.
  intros Hu aoi r. subst r. rewrite predict_gee_connected, Hu. fold aoi.
  cbn [negb]. split; [|split].
  - intros e ->. reflexivity.
  - intros img e -> H. cbn. rewrite H. reflexivity.
  - intros img s -> H Hk. cbn. rewrite H. cbn. rewrite Hk. reflexivity.
Qed.

(** X13: on a working endpoint with a dictionary as request body, status
    400 is the answer exactly when the value of use_gee is falsy (false, 0,
    null, an empty text or list); the provider is then not called, and the
    answer is the fixed refusal. *)
Theorem status_400_iff_use_gee_off (gee : @GEEIntegration geometry image) (d : pydict)
  (noise : float) (now : string) :
  let r := predict_gee str_to_float import_ee ee_point_buffer true (Some gee)
             (Ok (PDict d)) noise now in
  (snd r = 400%Z <-> Py.truthy (default (PBool true) (dict_get d "use_gee")) = false) /\
  (Py.truthy (default (PBool true) (dict_get d "use_gee")) = false ->
   r = error_response "GEE prediction requested but use_gee is False" 400).
Proof.
  intros r. subst r. rewrite predict_gee_connected.
  destruct (Py.truthy _) eqn:Hu; cbn [negb].
  - split; [|discriminate]. split; [|discriminate].
    destruct (get_weekly_sentinel2_data gee _) as [img|e]; [|discriminate]. cbn.
    destruct (get_weekly_summary gee img) as [summary|e]; [|discriminate]. cbn.
    destruct (Py.getitem summary "ndvi_mean") as [v|e]; [|discriminate]. cbn.
    destruct (Py.as_number v) as [x|e]; discriminate.
  - repeat split.
Qed.

(** X14: a falsy request body (null, false, 0, an empty text, list or
    object) is served as the empty object; a body that cannot be read is
    answered with status 500 and the text of the exception; so is a
    non-empty list, with the text of the missing method [get]. *)
Theorem request_body_variants (GEE_AVAILABLE : bool)
  (gee_integration : option (@GEEIntegration geometry image)) (noise : float) (now : string) :
  (forall body : pyval, Py.truthy body = false ->
     predict_gee str_to_float import_ee ee_point_buffer GEE_AVAILABLE gee_integration
       (Ok body) noise now
     = predict_gee str_to_float import_ee ee_point_buffer GEE_AVAILABLE gee_integration
         (Ok (PDict [])) noise now) /\
  (forall (gee : @GEEIntegration geometry image) (e : exn),
     GEE_AVAILABLE = true -> gee_integration = Some gee ->
     predict_gee str_to_float import_ee ee_point_buffer GEE_AVAILABLE gee_integration
       (Raise e) noise now
     = error_response (str_exn e) 500) /\
  (forall (gee : @GEEIntegration geometry image) (x : pyval) (l : list pyval),
     GEE_AVAILABLE = true -> gee_integration = Some gee ->
     predict_gee str_to_float import_ee ee_point_buffer GEE_AVAILABLE gee_integration
       (Ok (PList (x :: l))) noise now
     = error_response "'list' object has no attribute 'get'" 500).
Proof.
  split; [|split].
  - intros body Hb. unfold predict_gee. cbn [mbind result_bind rbind].
    rewrite Hb. reflexivity.
  - intros gee e -> ->. reflexivity.
  - intros gee x l -> ->. reflexivity.
Qed.

(** X15: the parts of a successful answer agree: the recommendation echoes
    the growth stage and the nitrogen level of the predictions, the stage is
    one of the four known ones so the recommendation has its three
    sentences, the NDVI mean is the one of the summary that is passed on,
    and the nitrogen level is a NaN or lies between 40 and 200. *)
Theorem success_is_consistent (GEE_AVAILABLE : bool)
  (gee_integration : option (@GEEIntegration geometry image)) (request : result pyval)
  (noise : float) (now : string) (body : pyval) :
  predict_gee str_to_float import_ee ee_point_buffer GEE_AVAILABLE gee_integration
    request noise now = (body, 200%Z) ->
  exists (stage : string) (level ndvi_mean : float) (advice : pydict) (summary : pyval),
    field body "predictions"
      = Some (PDict [ ("growth_stage", PStr stage); ("nitrogen_level", PNum level);
                      ("ndvi_mean", PNum ndvi_mean) ]) /\
    field body "recommendations" = Some (PDict advice) /\
    dict_get advice "growth_stage" = Some (PStr stage) /\
    dict_get advice "nitrogen_level" = Some (PNum level) /\
    known_stage stage = true /\
    keys_under advice "recommendations" = ["irrigation"; "fertilizer"; "management"] /\
    field body "gee_summary" = Some summary /\
    (Py.getitem summary "ndvi_mean" ≫= Py.as_number) = Ok ndvi_mean /\
    is_nan level || F64.within 40 200 level = true.
Proof.
  intros H.
  destruct (endpoint_outcome GEE_AVAILABLE gee_integration request noise now)
    as [E|[E|[[e E]|(summary & x & Hx & E)]]]; cbv zeta in E; rewrite E in H;
    try discriminate.
  injection H as <-.
  exists (predict_growth_stage x), (predict_nitrogen_level x noise),
    x, (generate_recommendations (predict_growth_stage x) (predict_nitrogen_level x noise)),
    summary.
  assert (Hs : known_stage (predict_growth_stage x) = true).
  { unfold predict_growth_stage.
    destruct (x <? 0.3); [reflexivity|]. destruct (x <? 0.5); [reflexivity|].
    destruct (x <? 0.7); reflexivity. }
  split; [reflexivity|]. split; [reflexivity|]. split; [reflexivity|].
  split; [reflexivity|]. split; [exact Hs|]. split.
  - unfold predict_growth_stage.
    destruct (x <? 0.3); [reflexivity|]. destruct (x <? 0.5); [reflexivity|].
    destruct (x <? 0.7); reflexivity.
  - split; [reflexivity|]. split; [exact Hx|].
    unfold predict_nitrogen_level. apply clip1_nan_or_within. reflexivity.
Qed.


End EndpointCases.

Lemma provider_failure_is_500_witness :
  predict_gee Sample.str_to_float (Ok tt) Sample.ee_point_buffer true
    (Some Providers.out_of_quota) (Ok (PDict [("use_gee", PBool true)])) 3
    "2024-05-01T06:00:00"
  = error_response "Earth Engine quota exceeded" 500 /\
  predict_gee Sample.str_to_float (Ok tt) Sample.ee_point_buffer true
    (Some Providers.no_ndvi) (Ok (PDict [("use_gee", PBool true)])) 3
    "2024-05-01T06:00:00"
  = error_response "'ndvi_mean'" 500.
Proof.
  split.
  - apply (proj1 (provider_failure_is_500 Sample.str_to_float (Ok tt)
              Sample.ee_point_buffer Providers.out_of_quota
              [("use_gee", PBool true)] 3 "2024-05-01T06:00:00" eq_refl)
             (RuntimeError "Earth Engine quota exceeded")).
    reflexivity.
  - apply (proj2 (proj2 (provider_failure_is_500 Sample.str_to_float (Ok tt)
              Sample.ee_point_buffer Providers.no_ndvi
              [("use_gee", PBool true)] 3 "2024-05-01T06:00:00" eq_refl))
             None [("evi_mean", PNum 0.4)]); reflexivity.
Defined.

Lemma status_400_iff_use_gee_off_witness :
  Sample.run (PDict [("use_gee", PNone)]) 0 "2024-05-01T06:00:00"
    = error_response "GEE prediction requested but use_gee is False" 400 /\
  snd (Sample.run (PDict [("use_gee", PStr "false")]) 0 "2024-05-01T06:00:00") <> 400%Z.
Proof.
  split.
  - apply (proj2 (status_400_iff_use_gee_off Sample.str_to_float (Ok tt)
              Sample.ee_point_buffer Sample.demo_gee [("use_gee", PNone)] 0
              "2024-05-01T06:00:00")).
    reflexivity.
  - intros H.
    apply (proj1 (proj1 (status_400_iff_use_gee_off Sample.str_to_float (Ok tt)
              Sample.ee_point_buffer Sample.demo_gee [("use_gee", PStr "false")] 0
              "2024-05-01T06:00:00"))) in H.
    discriminate H.
Defined.

Lemma request_body_variants_witness :
  Sample.run (PNum 0) 0 "2024-05-01T06:00:00"
    = Sample.run (PDict []) 0 "2024-05-01T06:00:00" /\
  Sample.run (PList [PNum 1]) 0 "2024-05-01T06:00:00"
    = error_response "'list' object has no attribute 'get'" 500.
Proof.
  split.
  - apply (proj1 (request_body_variants Sample.str_to_float (Ok tt)
              Sample.ee_point_buffer true (Some Sample.demo_gee) 0
              "2024-05-01T06:00:00")).
    reflexivity.
  - apply (proj2 (proj2 (request_body_variants Sample.str_to_float (Ok tt)
              Sample.ee_point_buffer true (Some Sample.demo_gee) 0
              "2024-05-01T06:00:00")) Sample.demo_gee); reflexivity.
Defined.

Lemma success_is_consistent_witness :
  exists (stage : string) (level ndvi_mean : float) (advice : pydict) (summary : pyval),
    field (fst (Sample.run (PDict []) 3 "2024-05-01T06:00:00")) "predictions"
      = Some (PDict [ ("growth_stage", PStr stage); ("nitrogen_level", PNum level);
                      ("ndvi_mean", PNum ndvi_mean) ]) /\
    field (fst (Sample.run (PDict []) 3 "2024-05-01T06:00:00")) "recommendations"
      = Some (PDict advice) /\
    dict_get advice "growth_stage" = Some (PStr stage) /\
    dict_get advice "nitrogen_level" = Some (PNum level) /\
    known_stage stage = true /\
    keys_under advice "recommendations" = ["irrigation"; "fertilizer"; "management"] /\
    field (fst (Sample.run (PDict []) 3 "2024-05-01T06:00:00")) "gee_summary"
      = Some summary /\
    (Py.getitem summary "ndvi_mean" ≫= Py.as_number) = Ok ndvi_mean /\
    is_nan level || F64.within 40 200 level = true.
Proof.
  apply (success_is_consistent Sample.str_to_float (Ok tt) Sample.ee_point_buffer
           true (Some Sample.demo_gee) (Ok (PDict [])) 3 "2024-05-01T06:00:00").
  reflexivity.
Defined.


(** ** Start-up and the other routes *)

Section StartupFacts.
Context {geometry image model : Type}.
Variable GEE_AVAILABLE : bool.

(** X17: [load_trained_models] returns [True] exactly when there is no
    training summary file or the file holds a JSON object; whether the
    network could be loaded and whether the provider could be built has no
    influence on the flag. *)
Theorem load_succeeds_iff (env : @LoadEnv geometry image model) (g : Globals) :
  fst (load_trained_models GEE_AVAILABLE env g) = true <->
  (path_exists env "outputs/training_summary.json" = false \/
   exists d : pydict, read_training_summary env = Ok (PDict d)).
Proof.
  unfold load_trained_models.
  destruct (path_exists env "outputs/training_summary.json").
  - destruct (read_training_summary env) as [v|e]; cbn.
    + destruct v; cbn; split; intros H; try discriminate; try (right; now eexists);
        trivial; destruct H as [H|[d' H]]; discriminate.
    + split; [discriminate|]. intros [H|[d H]]; discriminate.
  - cbn. split; [now left|trivial].
Qed.

(** What a call leaves of the models that are never loaded and of the
    provider. *)
Lemma globals_after_load_aux (env : @LoadEnv geometry image model) (g : Globals) :
  let r := load_trained_models GEE_AVAILABLE env g in
  growth_stage_model (snd r) = growth_stage_model g /\
  nitrogen_model (snd r) = nitrogen_model g /\
  gee_integration (snd r)
    = (if fst r then
         if GEE_AVAILABLE then
           match new_gee env with Ok x => Some x | Raise _ => None end
         else None
       else gee_integration g).
Proof.
  cbv zeta. unfold load_trained_models.
  destruct (path_exists env "outputs/potato_growth_cnn.h5");
    [destruct (load_cnn env)|];
    (destruct (path_exists env "outputs/training_summary.json");
     [destruct (read_training_summary env) as [[]|]|]);
    cbn; repeat split; destruct GEE_AVAILABLE; trivial;
    destruct (new_gee env); reflexivity.
Qed.

(** X18: a call of [load_trained_models] never assigns the growth-stage and
    the nitrogen model; it replaces the network only by one that was loaded;
    after a failed call the provider is the one from before, after a
    successful call it is the newly built one, or none when the module is
    unavailable or the constructor raised. *)
Theorem globals_after_load (env : @LoadEnv geometry image model) (g : Globals) :
  let r := load_trained_models GEE_AVAILABLE env g in
  growth_stage_model (snd r) = growth_stage_model g /\
  nitrogen_model (snd r) = nitrogen_model g /\
  cnn_model (snd r)
    = (if path_exists env "outputs/potato_growth_cnn.h5" then
         match load_cnn env with Ok m => Some m | Raise _ => cnn_model g end
       else cnn_model g) /\
  gee_integration (snd r)
    = (if fst r then
         if GEE_AVAILABLE then
           match new_gee env with Ok x => Some x | Raise _ => None end
         else None
       else gee_integration g).
Proof.
  cbv zeta.
  destruct (globals_after_load_aux env g) as (Ha & Hb & Hd).
  split; [exact Ha|]. split; [exact Hb|]. split; [|exact Hd].
  unfold load_trained_models.
  destruct (path_exists env "outputs/potato_growth_cnn.h5");
    [destruct (load_cnn env)|];
    (destruct (path_exists env "outputs/training_summary.json");
     [destruct (read_training_summary env) as [[]|]|]);
    reflexivity.
Qed.

Lemma reachable_invariant (g : @Globals geometry image model) :
  reachable GEE_AVAILABLE g ->
  growth_stage_model g = None /\ nitrogen_model g = None /\
  (is_Some (gee_integration g) -> GEE_AVAILABLE = true).
Proof.
  induction 1 as [|env g _ (IHa & IHb & IHc)].
  - repeat split. intros [x H]. discriminate.
  - destruct (globals_after_load_aux env g) as (Ha & Hb & Hd).
    rewrite Ha, Hb, Hd. repeat split; trivial.
    destruct (fst _); [|exact IHc].
    destruct GEE_AVAILABLE; trivial. intros [x H]. discriminate.
Qed.

(** X19: in every state that the process can reach from its import by calls
    of [load_trained_models], the growth-stage and the nitrogen model are
    unset and a provider is held only if its module was imported; so the
    health route reports models_loaded exactly when the network is loaded,
    and never a connected provider that is unavailable. *)
Theorem health_of_reachable (g : @Globals geometry image model) (now : string) :
  reachable GEE_AVAILABLE g ->
  growth_stage_model g = None /\ nitrogen_model g = None /\
  field (fst (health GEE_AVAILABLE g now)) "models_loaded"
    = Some (PBool (bool_decide (is_Some (cnn_model g)))) /\
  (field (fst (health GEE_AVAILABLE g now)) "gee_connected" = Some (PBool true) ->
   field (fst (health GEE_AVAILABLE g now)) "gee_available" = Some (PBool true)).
Proof.
  intros H. destruct (reachable_invariant g H) as (Ha & Hb & Hc).
  split; [exact Ha|]. split; [exact Hb|]. unfold health. cbn.
  rewrite Ha, Hb. split; [reflexivity|].
  intros E. injection E as E. apply bool_decide_eq_true in E.
  now rewrite (Hc E).
Qed.

Variable str_to_float : string -> option float.
Variable import_ee : result unit.
Variable ee_point_buffer : float -> float -> float -> result geometry.

(** X20: when start-up fails, because the training summary cannot be read
    or is no object, the provider is not built although its module may be
    available: every request to the endpoint is then refused with status
    400, and the health route reports no connection. *)
Theorem failed_startup_disables_endpoint (env : @LoadEnv geometry image model)
  (request : result pyval) (noise : float) (now : string) :
  fst (load_trained_models GEE_AVAILABLE env initial_globals) = false ->
  predict_gee str_to_float import_ee ee_point_buffer GEE_AVAILABLE
    (gee_integration (snd (load_trained_models GEE_AVAILABLE env initial_globals)))
    request noise now
  = error_response "GEE integration not available" 400 /\
  field (fst (health GEE_AVAILABLE
                (snd (load_trained_models GEE_AVAILABLE env initial_globals)) now))
    "gee_connected" = Some (PBool false).
Proof.
  intros H.
  destruct (globals_after_load_aux env initial_globals) as (_ & _ & Hd).
  rewrite H in Hd. unfold health, predict_gee. cbn [fst field dict_get String.eqb Ascii.eqb Bool.eqb].
  rewrite Hd. cbn. destruct GEE_AVAILABLE; split; reflexivity.
Qed.

(** X21: the home page and the endpoint agree on the provider: the page
    shows one of its two status texts, and it shows the text for a missing
    provider exactly when the endpoint refuses every request with status
    400. *)
Theorem home_status_matches_endpoint (g : @Globals geometry image model) :
  contains "✅ Connected" (home GEE_AVAILABLE g)
    = negb (contains "❌ Not Available" (home GEE_AVAILABLE g)) /\
  (contains "❌ Not Available" (home GEE_AVAILABLE g) = true <->
   forall (request : result pyval) (noise : float) (now : string),
     predict_gee str_to_float import_ee ee_point_buffer GEE_AVAILABLE
       (gee_integration g) request noise now
     = error_response "GEE integration not available" 400).
Proof.
  destruct g as [a b c [gee|]]; destruct GEE_AVAILABLE.
  - split; [vm_compute; reflexivity|]. split.
    + intros H. vm_compute in H. discriminate.
    + intros H. specialize (H (Raise (ValueError "Bad Request")) 0 "2024-05-01T06:00:00"). discriminate.
  - split; [vm_compute; reflexivity|]. split; [reflexivity|]. intros _.
    vm_compute. reflexivity.
  - split; [vm_compute; reflexivity|]. split; [reflexivity|]. intros _.
    vm_compute. reflexivity.
  - split; [vm_compute; reflexivity|]. split; [reflexivity|]. intros _.
    vm_compute. reflexivity.
Qed.

(** X22: the dashboard reads the availability of the module alone: it shows
    Connected exactly when the module was imported, also while no provider
    is held, in which case the home page shows Not Available and the health
    route reports no connection. *)
Theorem dashboard_status_ignores_connection (g : @Globals geometry image model)
  (now : string) :
  contains "Connected" (dashboard GEE_AVAILABLE) = GEE_AVAILABLE /\
  (GEE_AVAILABLE = true -> gee_integration g = None ->
   contains "Status:</strong> Connected" (dashboard GEE_AVAILABLE) = true /\
   contains "Status:</strong> ❌ Not Available" (home GEE_AVAILABLE g) = true /\
   field (fst (health GEE_AVAILABLE g now)) "gee_connected" = Some (PBool false)).
Proof.
  split.
  - destruct GEE_AVAILABLE; vm_compute; reflexivity.
  - intros -> Hg. destruct g as [a b c gee]. cbn in Hg. subst gee.
    split; [vm_compute; reflexivity|]. split; [vm_compute; reflexivity|]. reflexivity.
Qed.

End StartupFacts.

Lemma health_of_reachable_witness :
  field (fst (health true (snd (load_trained_models true Startup.no_files initial_globals))
                "2024-05-01T06:00:00")) "models_loaded"
    = Some (PBool false).
Proof.
  apply (proj1 (proj2 (proj2
           (health_of_reachable true
              (snd (load_trained_models true Startup.no_files initial_globals))
              "2024-05-01T06:00:00"
              (reach_load true Startup.no_files initial_globals (reach_import true)))))).
Defined.

Lemma failed_startup_disables_endpoint_witness :
  predict_gee Sample.str_to_float (Ok tt) Sample.ee_point_buffer true
    (gee_integration (snd (load_trained_models true Startup.broken_summary initial_globals)))
    (Ok (PDict [])) 0 "2024-05-01T06:00:00"
  = error_response "GEE integration not available" 400.
Proof.
  apply (proj1 (failed_startup_disables_endpoint true Sample.str_to_float (Ok tt)
                  Sample.ee_point_buffer Startup.broken_summary (Ok (PDict [])) 0
                  "2024-05-01T06:00:00" eq_refl)).
Defined.

Lemma dashboard_status_ignores_connection_witness :
  contains "Status:</strong> Connected" (dashboard true) = true /\
  contains "Status:</strong> ❌ Not Available"
    (home true (@initial_globals Sample.geometry Sample.image unit)) = true.
Proof.
  destruct (proj2 (dashboard_status_ignores_connection true
                     (@initial_globals Sample.geometry Sample.image unit)
                     "2024-05-01T06:00:00") eq_refl eq_refl) as (Hd & Hh & _).
  split; [exact Hd|exact Hh].
Defined.

Lemma load_succeeds_iff_witness :
  fst (load_trained_models true Startup.no_files initial_globals) = true /\
  fst (load_trained_models true Startup.broken_summary initial_globals) <> true.
Proof.
  split.
  - apply (proj2 (load_succeeds_iff true Startup.no_files initial_globals)).
    left. reflexivity.
  - intros H.
    apply (proj1 (load_succeeds_iff true Startup.broken_summary initial_globals)) in H.
    destruct H as [H|[d H]]; discriminate H.
Defined.

Lemma home_status_matches_endpoint_witness :
  contains "❌ Not Available"
    (home true (@initial_globals Sample.geometry Sample.image unit)) = true.
Proof.
  apply (proj2 (proj2 (home_status_matches_endpoint true Sample.str_to_float (Ok tt)
                         Sample.ee_point_buffer initial_globals))).
  intros request noise now. reflexivity.
Defined.

(** ** The threshold chain as a whole *)

Lemma ltb_is_nan_l (x c : float) : is_nan x = true -> (x <? c) = false.
Proof.
  intros H. destruct (x <? c) eqn:E; trivial.
  rewrite (F64Facts.ltb_number_l _ _ E) in H. discriminate.
Qed.

(** X23: the growth stage is vegetative exactly below 0.3 and maturation
    exactly when the NDVI mean is not below 0.7, which includes a NaN; and
    the stage never moves back in the season when the NDVI mean grows. *)
Theorem growth_stage_exact (ndvi_mean : float) :
  (predict_growth_stage ndvi_mean = "vegetative" <-> (ndvi_mean <? 0.3) = true) /\
  (predict_growth_stage ndvi_mean = "maturation" <-> (ndvi_mean <? 0.7) = false) /\
  (is_nan ndvi_mean = true -> predict_growth_stage ndvi_mean = "maturation") /\
  (forall larger : float,
      (ndvi_mean <=? larger) = true ->
      (stage_rank (predict_growth_stage ndvi_mean)
        <= stage_rank (predict_growth_stage larger))%nat).
Proof.
  assert (H35 : (ndvi_mean <? 0.3) = true -> (ndvi_mean <? 0.5) = true)
    by (intros H; exact (F64Facts.ltb_trans _ 0.3 0.5 H eq_refl)).
  assert (H57 : (ndvi_mean <? 0.5) = true -> (ndvi_mean <? 0.7) = true)
    by (intros H; exact (F64Facts.ltb_trans _ 0.5 0.7 H eq_refl)).
  unfold predict_growth_stage. split; [|split; [|split]].
  - destruct (ndvi_mean <? 0.3); [tauto|].
    destruct (ndvi_mean <? 0.5); [split; discriminate|].
    destruct (ndvi_mean <? 0.7); split; discriminate.
  - destruct (ndvi_mean <? 0.3); [rewrite H57 by auto; split; discriminate|].
    destruct (ndvi_mean <? 0.5); [rewrite H57 by auto; split; discriminate|].
    destruct (ndvi_mean <? 0.7); [split; discriminate|tauto].
  - intros Hn. now rewrite !(ltb_is_nan_l _ _ Hn).
  - intros larger Hle.
    assert (M : forall c : float, (larger <? c) = true -> (ndvi_mean <? c) = true)
      by (intros c; exact (F64Sign.leb_ltb_trans _ _ _ Hle)).
    destruct (larger <? 0.3) eqn:L3; [rewrite (M _ L3); cbn; lia|].
    destruct (larger <? 0.5) eqn:L5.
    { rewrite (M _ L5). destruct (ndvi_mean <? 0.3); cbn; lia. }
    destruct (larger <? 0.7) eqn:L7.
    { rewrite (M _ L7). destruct (ndvi_mean <? 0.3), (ndvi_mean <? 0.5); cbn; lia. }
    destruct (ndvi_mean <? 0.3), (ndvi_mean <? 0.5), (ndvi_mean <? 0.7); cbn; lia.
Qed.

Lemma growth_stage_exact_witness :
  predict_growth_stage nan = "maturation" /\
  (stage_rank (predict_growth_stage 0.45) <= stage_rank (predict_growth_stage 0.62))%nat.
Proof.
  split.
  - apply (proj1 (proj2 (proj2 (growth_stage_exact nan)))). reflexivity.
  - apply (proj2 (proj2 (proj2 (growth_stage_exact 0.45))) 0.62). reflexivity.
Defined.
